(** * Iris EDA dashboard ([app.py]): a shallow embedding and its properties

    The script loads scikit-learn's Iris table into a pandas frame, shows
    summary statistics, and draws a histogram and a scatter plot whose
    columns are picked in select boxes; a last select box filters the
    table by species.

    Conventions of the embedding:
    - a [float64] value is an exact rational ([Q]); [NaN] is [None];
    - a Python exception is the [Raise] outcome of [result];
    - library calls (pandas, numpy, matplotlib, streamlit) are embedded
      by the documented behaviour of the call the script makes;
    - what the script hands to Streamlit is the list of [Element]s it
      emitted, in program order. *)

From Stdlib Require Import QArith Qround Qminmax Rdefinitions RIneq R_sqrt Qreals.
From Stdlib Require Import Lia Lra Lqa.
From stdpp Require Import base option list strings gmap.

Set Default Proof Using "Type".
#[local] Set Warnings "-clear-no-such-hyp".

(** ** Exceptions

    [NotEmbedded] is not a Python exception: it marks the two places
    where the embedding stops short of the libraries (plotting a column
    of strings, a [Species] column of floats).  No run of the script
    on scikit-learn's bunch gets there ([app_embedded]). *)

Inductive exn : Set :=
| ValueError
| KeyError
| IndexError
| StreamlitAPIException
| NotEmbedded.

Inductive result (A : Type) : Type :=
| Ok (a : A)
| Raise (e : exn).
Arguments Ok {A} a.
Arguments Raise {A} e.

#[global] Instance result_ret : MRet result := λ A a, Ok a.
#[global] Instance result_bind : MBind result := λ A B k r,
  match r with
  | Ok a => k a
  | Raise e => Raise e
  end.
#[global] Instance result_fmap : FMap result := λ A B f r,
  match r with
  | Ok a => Ok (f a)
  | Raise e => Raise e
  end.

Fixpoint rmap {A B} (f : A → result B) (l : list A) : result (list B) :=
  match l with
  | [] => Ok []
  | a :: l' => b ← f a; bs ← rmap f l'; Ok (b :: bs)
  end.

(** ** pandas: series and frames *)

Module pd.

(** A column: [float64] values or Python objects (here always [str]). *)
Inductive Series : Type :=
| Float64 (values : list Q)
| Object (values : list string).

Definition size (s : Series) : nat :=
  match s with
  | Float64 v => length v
  | Object v => length v
  end.

(** A frame: labelled columns over a range index of [nrows] rows. *)
Record DataFrame : Type := mkDataFrame {
  columns : list (string * Series);
  nrows : nat
}.

Definition labels (df : DataFrame) : list string := (columns df).*1.

(** Frame invariant kept by pandas: every column spans the index.
    [NoDup] holds of every frame the script builds (see
    [load_data_wf]); with it [df[label]] is a series. *)
Record wf (df : DataFrame) : Prop := {
  wf_size : Forall (λ c, size c.2 = nrows df) (columns df);
  wf_labels : NoDup (labels df)
}.

(** [pd.DataFrame(data, columns=names)] for a 2-D float array given by
    its rows.  pandas raises [ValueError] when the array's second
    dimension differs from the number of labels. *)
Definition DataFrame_of (data : list (list Q)) (names : list string)
  : result DataFrame :=
  if forallb (λ row, Nat.eqb (length row) (length names)) data
  then Ok {| columns :=
               imap (λ j name, (name, Float64 ((λ row, nth j row 0%Q) <$> data)))
                    names;
             nrows := length data |}
  else Raise ValueError.

Fixpoint lookup_column (label : string) (cols : list (string * Series))
  : option Series :=
  match cols with
  | [] => None
  | c :: cols' =>
      if decide (c.1 = label) then Some c.2 else lookup_column label cols'
  end.

(** [df[label]]: [KeyError] when no column carries the label. *)
Definition getitem (df : DataFrame) (label : string) : result Series :=
  match lookup_column label (columns df) with
  | Some s => Ok s
  | None => Raise KeyError
  end.

(** [df[None]], what the script evaluates when a select box had no
    option to offer: no column is labelled [None]. *)
Definition getitem_opt (df : DataFrame) (label : option string)
  : result Series :=
  match label with
  | Some l => getitem df l
  | None => Raise KeyError
  end.

Fixpoint replace_column (label : string) (s : Series)
    (cols : list (string * Series)) : option (list (string * Series)) :=
  match cols with
  | [] => None
  | c :: cols' =>
      if decide (c.1 = label) then Some ((label, s) :: cols')
      else (c ::.) <$> replace_column label s cols'
  end.

(** [df[label] = s] for an array-like [s]: a length other than the
    index's raises [ValueError]; an existing column is replaced where
    it stands, a new one is appended. *)
Definition setitem (df : DataFrame) (label : string) (s : Series)
  : result DataFrame :=
  if decide (size s = nrows df) then
    Ok {| columns :=
            match replace_column label s (columns df) with
            | Some cols => cols
            | None => columns df ++ [(label, s)]
            end;
          nrows := nrows df |}
  else Raise ValueError.

(** [df.select_dtypes(include=[np.number]).columns.tolist()] *)
Definition is_number (s : Series) : bool :=
  match s with
  | Float64 _ => true
  | Object _ => false
  end.

Definition select_number_labels (df : DataFrame) : list string :=
  (List.filter (λ c, is_number c.2) (columns df)).*1.

(** Boolean indexing [s[mask]] / [df[mask]]: the rows whose mask entry
    is [True], in order. *)
Fixpoint take_mask {A} (mask : list bool) (l : list A) : list A :=
  match mask, l with
  | b :: mask', x :: l' =>
      if b then x :: take_mask mask' l' else take_mask mask' l'
  | _, _ => []
  end.

Definition series_mask (mask : list bool) (s : Series) : Series :=
  match s with
  | Float64 v => Float64 (take_mask mask v)
  | Object v => Object (take_mask mask v)
  end.

Definition count_true (mask : list bool) : nat :=
  length (List.filter id mask).

Definition mask_rows (df : DataFrame) (mask : list bool) : DataFrame :=
  {| columns := prod_map id (series_mask mask) <$> columns df;
     nrows := count_true (take (nrows df) mask) |}.

(** [df.head()]: the first five rows. *)
Definition series_head (n : nat) (s : Series) : Series :=
  match s with
  | Float64 v => Float64 (take n v)
  | Object v => Object (take n v)
  end.

Definition head (df : DataFrame) : DataFrame :=
  {| columns := prod_map id (series_head 5) <$> columns df;
     nrows := Nat.min 5 (nrows df) |}.

(** The rows of a frame, each a list of cells in column order. *)
Inductive Cell : Type :=
| Num (q : Q)
| Str (s : string).

Definition cells (s : Series) : list Cell :=
  match s with
  | Float64 v => Num <$> v
  | Object v => Str <$> v
  end.

Definition records (df : DataFrame) : list (list Cell) :=
  foldr (λ c rows, zip_with cons (cells c.2) rows)
        (replicate (nrows df) []) (columns df).

(** [s.unique()]: the distinct values in order of first appearance; one
    pass that remembers the values seen so far. *)
Fixpoint unique_from (seen : gset string) (l : list string) : list string :=
  match l with
  | [] => []
  | x :: l' =>
      if decide (x ∈ seen) then unique_from seen l'
      else x :: unique_from ({[x]} ∪ seen) l'
  end.

Definition unique (l : list string) : list string := unique_from ∅ l.

(** [s == value] for an object column. *)
Definition eq_mask (l : list string) (value : string) : list bool :=
  (λ x, bool_decide (x = value)) <$> l.

End pd.

(** ** numpy: indexing an array of names by an array of integers *)

Module np.

(** [names[i]] for one integer [i]: negative indices count from the
    end, anything outside [-len, len) raises [IndexError]. *)
Definition item (names : list string) (i : Z) : result string :=
  let n := Z.of_nat (length names) in
  let j := if (i <? 0)%Z then (i + n)%Z else i in
  if ((0 <=? j) && (j <? n))%Z then
    match names !! Z.to_nat j with
    | Some s => Ok s
    | None => Raise IndexError
    end
  else Raise IndexError.

(** [names[indices]] (integer array indexing). *)
Definition take (names : list string) (indices : list Z)
  : result (list string) :=
  rmap (item names) indices.

End np.

(** ** The data set *)

(** What [sklearn.datasets.load_iris()] returns, as far as the script
    reads it. *)
Record Bunch : Type := mkBunch {
  data : list (list Q);
  feature_names : list string;
  target : list Z;
  target_names : list string
}.

(** [load_data] *)
Definition load_data (iris : Bunch) : result pd.DataFrame :=
  iris_df ← pd.DataFrame_of (data iris) (feature_names iris);
  species ← np.take (target_names iris) (target iris);
  pd.setitem iris_df "Species" (pd.Object species).

(** ** numpy and matplotlib: the histogram *)

Module plt.

Record Histogram : Type := mkHistogram {
  counts : list nat;
  bin_edges : list Q
}.

Definition Qlt_bool (x y : Q) : bool := negb (Qle_bool y x).

(** [np.min], [np.max] of a non-empty array. *)
Definition amin (a : list Q) : option Q :=
  match a with
  | [] => None
  | x :: a' => Some (foldl Qmin x a')
  end.

Definition amax (a : list Q) : option Q :=
  match a with
  | [] => None
  | x :: a' => Some (foldl Qmax x a')
  end.

(** [np.linspace(start, stop, num)] with [num = bins + 1]:
    [arange(num) * step + start], the last entry set to [stop]. *)
Definition linspace (start stop : Q) (bins : nat) : list Q :=
  let step := ((stop - start) / inject_Z (Z.of_nat bins))%Q in
  ((λ i : nat, (inject_Z (Z.of_nat i) * step + start)%Q) <$> seq 0 bins)
    ++ [stop].

(** [numpy.lib._get_outer_edges]: the given range, else the data's
    extent, else [(0, 1)] for no data; a range of zero width is
    widened by one half on either side. *)
Definition get_outer_edges (a : list Q) (range : option (Q * Q))
  : result (Q * Q) :=
  edges ← match range with
          | Some (first_edge, last_edge) =>
              if Qlt_bool last_edge first_edge then Raise ValueError
              else Ok (first_edge, last_edge)
          | None =>
              match amin a, amax a with
              | Some lo, Some hi => Ok (lo, hi)
              | _, _ => Ok (0%Q, 1%Q)
              end
          end;
  let '(first_edge, last_edge) := edges in
  if Qeq_bool first_edge last_edge
  then Ok ((first_edge - (1 # 2))%Q, (last_edge + (1 # 2))%Q)
  else Ok (first_edge, last_edge).

(** [x.astype(np.intp)]: truncation toward zero. *)
Definition astype_intp (x : Q) : Z := Z.quot (Qnum x) (Z.pos (Qden x)).

Definition edge_at (edges : list Q) (i : Z) : Q :=
  nth (Z.to_nat i) edges 0%Q.

(** The bin of one kept value, as [np.histogram] computes it for
    equal-width bins: scale, truncate, fold the right end into the last
    bin, then correct against the edges. *)
Definition bin_index (first_edge last_edge : Q) (bins : nat)
    (edges : list Q) (x : Q) : Z :=
  let n_equal_bins := Z.of_nat bins in
  let f_index :=
    ((x - first_edge) / (last_edge - first_edge) * inject_Z n_equal_bins)%Q in
  let index := astype_intp f_index in
  let index := if (index =? n_equal_bins)%Z then (index - 1)%Z else index in
  let index :=
    if Qlt_bool x (edge_at edges index) then (index - 1)%Z else index in
  let index :=
    if Qle_bool (edge_at edges (index + 1)) x
       && negb (index =? n_equal_bins - 1)%Z
    then (index + 1)%Z else index in
  index.

(** [np.bincount(indices, minlength=n)] *)
Definition bincount (indices : list Z) (minlength : nat)
  : result (list nat) :=
  if forallb (λ i, (0 <=? i)%Z) indices then
    let size := foldr (λ i m, Nat.max (S (Z.to_nat i)) m) minlength indices in
    Ok ((λ k : nat, length (List.filter (λ i, (i =? Z.of_nat k)%Z) indices))
          <$> seq 0 size)
  else Raise ValueError.

(** [np.histogram(a, bins, range)] for an integer [bins]. *)
Definition histogram (a : list Q) (bins : nat) (range : option (Q * Q))
  : result Histogram :=
  if decide (bins < 1) then Raise ValueError else
  edges ← get_outer_edges a range;
  let '(first_edge, last_edge) := edges in
  let bin_edges := linspace first_edge last_edge bins in
  let keep :=
    List.filter (λ x, Qle_bool first_edge x && Qle_bool x last_edge) a in
  let indices := bin_index first_edge last_edge bins bin_edges <$> keep in
  n ← bincount indices bins;
  Ok {| counts := n; bin_edges := bin_edges |}.


(** [Axes.hist(x, bins=...)] for one data set: the range handed to
    [np.histogram] is the data's extent when there is data. *)
Definition hist (x : list Q) (bins : nat) : result Histogram :=
  let bin_range :=
    match amin x, amax x with
    | Some xmin, Some xmax =>
        if Qle_bool xmin xmax then Some (xmin, xmax) else None
    | _, _ => None
    end in
  histogram x bins bin_range.

End plt.

(** ** pandas: [DataFrame.describe] *)

Module describe.

(** A square root of a rational, kept exact: [sqrt_of v] stands for the
    real number [sqrt v]. *)
Inductive Root : Type := sqrt_of (radicand : Q).

Definition radicand (r : Root) : Q :=
  match r with
  | sqrt_of v => v
  end.

Definition to_R (r : Root) : R := sqrt (Q2R (radicand r)).

(** One column of the summary table; [None] is [NaN]. *)
Record Stats : Type := mkStats {
  count : nat;
  mean : option Q;
  std : option Root;
  min : option Q;
  pct25 : option Q;
  pct50 : option Q;
  pct75 : option Q;
  max : option Q
}.

Definition of_nat (n : nat) : Q := inject_Z (Z.of_nat n).

Definition sum (a : list Q) : Q := foldr Qplus 0%Q a.

(** [nanmean]: the sum over the count. *)
Definition nanmean (a : list Q) : option Q :=
  match a with
  | [] => None
  | _ => Some (sum a / of_nat (length a))%Q
  end.

(** [nanvar] with [ddof]: squared deviations from the mean, summed and
    divided by [count - ddof]; [NaN] unless [count > ddof]. *)
Definition nanvar (a : list Q) (ddof : nat) : option Q :=
  if decide (length a ≤ ddof) then None else
  let avg := (sum a / of_nat (length a))%Q in
  let sqr := (λ x, ((avg - x) * (avg - x))%Q) <$> a in
  Some (sum sqr / of_nat (length a - ddof))%Q.

(** [Series.std()]: the square root of the variance with [ddof = 1]. *)
Definition nanstd (a : list Q) : option Root :=
  sqrt_of <$> nanvar a 1.

Fixpoint insort (x : Q) (l : list Q) : list Q :=
  match l with
  | [] => [x]
  | y :: l' => if Qle_bool x y then x :: l else y :: insort x l'
  end.

Definition sort (a : list Q) : list Q := foldr insort [] a.

(** [numpy]'s [_lerp]. *)
Definition lerp (a b t : Q) : Q :=
  if Qle_bool (1 # 2) t then (b - (b - a) * (1 - t))%Q
  else (a + (b - a) * t)%Q.

(** [np.percentile(a, 100 q, method="linear")] for [0 <= q <= 1]: the
    virtual index [(n - 1) q] is split into its floor and its fraction,
    and the two neighbouring order statistics are interpolated. *)
Definition quantile (a : list Q) (q : Q) : option Q :=
  match a with
  | [] => None
  | _ =>
      let arr := sort a in
      let n := length a in
      let virtual_index := (of_nat (n - 1) * q)%Q in
      let floor_index := Z.to_nat (Qfloor virtual_index) in
      let gamma := (virtual_index - of_nat floor_index)%Q in
      let previous_index :=
        if Qle_bool (of_nat (n - 1)) virtual_index then n - 1
        else floor_index in
      let next_index :=
        if Qle_bool (of_nat (n - 1)) virtual_index then n - 1
        else floor_index + 1 in
      Some (lerp (nth previous_index arr 0%Q) (nth next_index arr 0%Q) gamma)
  end.

Definition describe_1d (a : list Q) : Stats :=
  {| count := length a;
     mean := nanmean a;
     std := nanstd a;
     min := plt.amin a;
     pct25 := quantile a (1 # 4);
     pct50 := quantile a (1 # 2);
     pct75 := quantile a (3 # 4);
     max := plt.amax a |}.

(** [df.describe()] of a frame that has numeric columns: one summary
    per numeric column, in column order.  (A frame without numeric
    columns gets pandas' summary of its object columns instead, which
    has other rows; the script's frame always has numeric columns, and
    that other table is not embedded: it is the empty list here.) *)
Definition describe (df : pd.DataFrame) : list (string * Stats) :=
  omap (λ c, match c.2 with
             | pd.Float64 v => Some (c.1, describe_1d v)
             | pd.Object _ => None
             end) (pd.columns df).

End describe.

(** ** matplotlib figures, as data *)

Module fig.

Inductive Artist : Type :=
| Bars (h : plt.Histogram) (color edgecolor : string)
| Points (x y : list Q) (label color : string) (alpha : Q) (s : nat).

Record Figure : Type := mkFigure {
  figsize : nat * nat;
  artists : list Artist;
  xlabel : option string;
  ylabel : option string;
  legend : bool
}.

Definition label (a : Artist) : option string :=
  match a with
  | Bars _ _ _ => None
  | Points _ _ l _ _ _ => Some l
  end.

Definition color (a : Artist) : string :=
  match a with
  | Bars _ c _ => c
  | Points _ _ _ c _ _ => c
  end.

(** The point-set of a scatter artist. *)
Definition points (a : Artist) : list (Q * Q) :=
  match a with
  | Bars _ _ _ => []
  | Points x y _ _ _ _ => zip x y
  end.

(** [ax.scatter(x, y, ...)]: [x] and [y] must have the same size. *)
Definition scatter (x y : list Q) (label color : string) : result Artist :=
  if decide (length x = length y)
  then Ok (Points x y label color (6 # 10) 80)
  else Raise ValueError.

End fig.

(** ** Streamlit: the page and its widgets *)

Module st.

(** A piece of an f-string. *)
Inductive Arg : Type :=
| Text (s : string)
| Int (n : nat)
| Name (o : option string)
| Names (l : list string).

Inductive Element : Type :=
| page_config (page_title layout : string)
| title (s : string)
| markdown (s : string)
| header (s : string)
| sidebar_header (s : string)
| subheader (s : list Arg)
| write (s : list Arg)
| dataframe (df : pd.DataFrame)
| summary (table : list (string * describe.Stats))
| select_widget (label : string) (options : list string) (index : nat)
| pyplot (f : fig.Figure).

(** What the front end holds between runs: for each select box the user
    touched (named by its label), the position picked in its list. *)
Definition Session : Type := gmap string nat.

(** A run of the script reads the session, appends to the page, and
    ends normally or with an exception; what was emitted before an
    exception stays on the page. *)
Definition App (A : Type) : Type :=
  Session → list Element → list Element * result A.

Definition emit (e : Element) : App () :=
  λ _ page, (page ++ [e], Ok ()).

Definition lift {A} (r : result A) : App A :=
  λ _ page, (page, r).

(** [st.selectbox(label, options, index)]: an index outside a non-empty
    option list is refused; the value is the option at the position
    the session holds for this widget, else at [index]; [None] when
    there is nothing to offer. *)
Definition selectbox (label : string) (options : list string) (index : nat)
  : App (option string) :=
  λ session page,
    if decide (0 < length options ∧ length options ≤ index)
    then (page, Raise StreamlitAPIException)
    else
      let page := page ++ [select_widget label options index] in
      match options with
      | [] => (page, Ok None)
      | _ =>
          match options !! default index (session !! label) with
          | Some v => (page, Ok (Some v))
          | None => (page, Raise IndexError)
          end
      end.

End st.

#[global] Instance app_ret : MRet st.App := λ A a _ page, (page, Ok a).
#[global] Instance app_bind : MBind st.App := λ A B k m session page,
  match m session page with
  | (page', Ok a) => k a session page'
  | (page', Raise e) => (page', Raise e)
  end.

(** ** The script *)

(** A column that the script plots: a label picked among
    [numeric_columns], so a [float64] column. *)
Definition float_values (s : pd.Series) : result (list Q) :=
  match s with
  | pd.Float64 v => Ok v
  | pd.Object _ => Raise NotEmbedded
  end.

(** The [Species] column, which [load_data] fills with strings. *)
Definition species_values (iris_data : pd.DataFrame) : result (list string) :=
  s ← pd.getitem iris_data "Species";
  match s with
  | pd.Object v => Ok v
  | pd.Float64 _ => Raise NotEmbedded
  end.

(** [iris_data[iris_data["Species"] == species]] *)
Definition species_rows (iris_data : pd.DataFrame) (species : option string)
  : result pd.DataFrame :=
  v ← species_values iris_data;
  Ok (pd.mask_rows iris_data
        (match species with
         | Some s => pd.eq_mask v s
         | None => (λ _, false) <$> v
         end)).

Definition numeric_columns (iris_data : pd.DataFrame) : list string :=
  pd.select_number_labels iris_data.

(** The histogram figure (script lines 92-98). *)
Definition histogram_figure (iris_data : pd.DataFrame)
    (selected_column_hist : option string) (bins : nat) : result fig.Figure :=
  column ← pd.getitem_opt iris_data selected_column_hist;
  x ← float_values column;
  h ← plt.hist x bins;
  Ok {| fig.figsize := (8, 5);
        fig.artists := [fig.Bars h "skyblue" "black"];
        fig.xlabel := selected_column_hist;
        fig.ylabel := Some "Frequency";
        fig.legend := false |}.

Definition species_colors : gmap string string :=
  <["setosa" := "red"]> (<["versicolor" := "green"]> (<["virginica" := "blue"]> ∅)).

(** [d.get(key, fallback)] *)
Definition dict_get (d : gmap string string) (key fallback : string) : string :=
  default fallback (d !! key).

(** One turn of the loop over the species (script lines 108-116). *)
Definition scatter_group (iris_data : pd.DataFrame) (col_x col_y : option string)
    (species : string) : result fig.Artist :=
  species_data ← species_rows iris_data (Some species);
  sx ← pd.getitem_opt species_data col_x;
  x ← float_values sx;
  sy ← pd.getitem_opt species_data col_y;
  y ← float_values sy;
  fig.scatter x y species (dict_get species_colors species "gray").

(** The scatter figure (script lines 103-122). *)
Definition scatter_figure (iris_data : pd.DataFrame) (col_x col_y : option string)
  : result fig.Figure :=
  v ← species_values iris_data;
  groups ← rmap (scatter_group iris_data col_x col_y) (pd.unique v);
  Ok {| fig.figsize := (8, 5);
        fig.artists := groups;
        fig.xlabel := col_x;
        fig.ylabel := col_y;
        fig.legend := true |}.

(** The script after [iris_data = load_data()], section by section. *)

(** Lines 38-55: overview and summary statistics. *)
Definition overview (iris_data : pd.DataFrame) : st.App () :=
  st.emit (st.header "📊 Dataset Overview");;
  st.emit (st.subheader [st.Text "First 5 Rows"]);;
  st.emit (st.dataframe (pd.head iris_data));;
  st.emit (st.subheader [st.Text "Dataset Information"]);;
  st.emit (st.write [st.Text "**Total rows:** "; st.Int (pd.nrows iris_data)]);;
  st.emit (st.write [st.Text "**Total columns:** ";
                     st.Int (length (pd.columns iris_data))]);;
  species ← st.lift (species_values iris_data);
  st.emit (st.write [st.Text "**Species:** "; st.Names (pd.unique species)]);;
  st.emit (st.header "📈 Summary Statistics");;
  st.emit (st.summary (describe.describe iris_data)).

(** What the three select boxes of the sidebar return. *)
Record Selection : Type := mkSelection {
  selected_column_hist : option string;
  col_x : option string;
  col_y : option string
}.

Definition hist_label : string := "Select column for histogram:".
Definition x_label : string := "Select X-axis for scatter plot:".
Definition y_label : string := "Select Y-axis for scatter plot:".
Definition species_label : string := "Select species to view records:".

(** Lines 57-85: the sidebar. *)
Definition sidebar (iris_data : pd.DataFrame) : st.App Selection :=
  st.emit (st.header "🎨 Interactive Visualizations");;
  let numeric_columns := numeric_columns iris_data in
  st.emit (st.sidebar_header "Visualization Options");;
  selected_column_hist ← st.selectbox hist_label numeric_columns 0;
  col_x ← st.selectbox x_label numeric_columns 0;
  col_y ← st.selectbox y_label numeric_columns
            (if decide (1 < length numeric_columns) then 1 else 0);
  mret {| selected_column_hist := selected_column_hist;
          col_x := col_x; col_y := col_y |}.

(** Lines 87-122: the two charts. *)
Definition charts (iris_data : pd.DataFrame) (sel : Selection) : st.App () :=
  st.emit (st.subheader [st.Text "📊 Histogram: ";
                         st.Name (selected_column_hist sel)]);;
  fig_hist ← st.lift (histogram_figure iris_data (selected_column_hist sel) 20);
  st.emit (st.pyplot fig_hist);;
  st.emit (st.subheader [st.Text "📍 Scatter Plot: "; st.Name (col_x sel);
                         st.Text " vs "; st.Name (col_y sel)]);;
  fig_scatter ← st.lift (scatter_figure iris_data (col_x sel) (col_y sel));
  st.emit (st.pyplot fig_scatter).

(** Lines 125-129: the species select box. *)
Definition species_select (iris_data : pd.DataFrame) : st.App (option string) :=
  st.emit (st.header "🔍 Data by Species");;
  species ← st.lift (species_values iris_data);
  st.selectbox species_label (pd.unique species) 0.

(** Lines 124-132: the records of one species. *)
Definition species_detail (iris_data : pd.DataFrame) : st.App () :=
  species_selected ← species_select iris_data;
  species_data ← st.lift (species_rows iris_data species_selected);
  st.emit (st.dataframe species_data);;
  st.emit (st.write [st.Text "**Count:** "; st.Int (pd.nrows species_data);
                     st.Text " records"]).

Definition page (iris_data : pd.DataFrame) : st.App () :=
  overview iris_data;;
  sel ← sidebar iris_data;
  charts iris_data sel;;
  species_detail iris_data.

(** The whole script. *)
Definition app (iris : Bunch) : st.App () :=
  st.emit (st.page_config "Iris EDA" "wide");;
  st.emit (st.title "🌸 Iris Dataset Exploratory Data Analysis");;
  st.emit (st.markdown
    "This app provides interactive visualization and analysis of the Iris dataset.");;
  iris_data ← st.lift (load_data iris);
  page iris_data.

(** A run from an empty page. *)
Definition run (iris : Bunch) (session : st.Session)
  : list st.Element * result () :=
  app iris session [].

(** ** scikit-learn's Iris bunch *)

Definition iris_feature_names : list string :=
  ["sepal length (cm)"; "sepal width (cm)";
   "petal length (cm)"; "petal width (cm)"].

Definition iris_target_names : list string :=
  ["setosa"; "versicolor"; "virginica"].

Definition iris_target : list Z :=
  replicate 50 0%Z ++ replicate 50 1%Z ++ replicate 50 2%Z.

(** Modelled from the spec: [load_iris()] is scikit-learn's bundled
    table, which is not part of the repository.  The spec fixes its shape
    (150 rows, four measurements, one label out of three); the labels are
    the fifty-fifty-fifty layout of the classic table and the names are
    those the script and the spec use.  The measurements themselves are
    left open: [measurements] is any table, and the theorems ask of it
    only the shape [iris_shape]. *)
Definition load_iris (measurements : list (list Q)) : Bunch :=
  {| data := measurements;
     feature_names := iris_feature_names;
     target := iris_target;
     target_names := iris_target_names |}.

Definition iris_shape (measurements : list (list Q)) : Prop :=
  length measurements = 150 ∧ Forall (λ row, length row = 4) measurements.

(** A table of the right shape to run the script on: row [i] holds
    measurements in tenths, spread like the real ones. *)
Definition sample_measurements : list (list Q) :=
  (λ i : nat,
     [inject_Z (Z.of_nat (43 + i `mod` 37)) / 10;
      inject_Z (Z.of_nat (20 + (7 * i) `mod` 25)) / 10;
      inject_Z (Z.of_nat (10 + (11 * i) `mod` 60)) / 10;
      inject_Z (Z.of_nat (1 + (3 * i) `mod` 25)) / 10]%Q) <$> seq 0 150.

(** The labels and the frame that [load_data] builds from that bunch. *)
Definition iris_species : list string :=
  replicate 50 "setosa" ++ replicate 50 "versicolor" ++ replicate 50 "virginica".

Definition iris_frame (measurements : list (list Q)) : pd.DataFrame :=
  {| pd.columns :=
       imap (λ j name,
               (name, pd.Float64 ((λ row, nth j row 0%Q) <$> measurements)))
            iris_feature_names
       ++ [("Species", pd.Object iris_species)];
     pd.nrows := length measurements |}.

(** ** Reading the records of a frame *)

(** The cell of record [r] under the column labelled [label]. *)
Fixpoint field (label : string) (names : list string) (r : list pd.Cell)
  : option pd.Cell :=
  match names, r with
  | name :: names', c :: r' =>
      if decide (name = label) then Some c else field label names' r'
  | _, _ => None
  end.

(** The category of a record: its [Species] cell. *)
Definition category (df : pd.DataFrame) (r : list pd.Cell) : option string :=
  match field "Species" (pd.labels df) r with
  | Some (pd.Str s) => Some s
  | _ => None
  end.

(** ** Reading a page *)

(** The figures shown on a page, in order. *)
Definition figures (page : list st.Element) : list fig.Figure :=
  omap (λ e, match e with
             | st.pyplot f => Some f
             | _ => None
             end) page.

(** The select boxes shown on a page: label and options. *)
Definition select_boxes (page : list st.Element)
  : list (string * list string) :=
  omap (λ e, match e with
             | st.select_widget label options _ => Some (label, options)
             | _ => None
             end) page.


(** ** The statistics by their textbook formulas

    These two definitions follow the words of the specification, not the
    libraries; the summary computed by [describe] is compared with them. *)

(** Sample variance: squared deviations from the mean over [n - 1]. *)
Definition sample_variance (x : list Q) : Q :=
  let n := describe.of_nat (length x) in
  let mean := (describe.sum x / n)%Q in
  (describe.sum ((λ v, (v - mean) * (v - mean)) <$> x) / (n - 1))%Q.

(** Percentile by linear interpolation between closest ranks: with
    [h = (n - 1) p], the value at rank [floor h] plus the fraction of [h]
    times the step to the value at rank [ceiling h]. *)
Definition linear_percentile (sorted : list Q) (p : Q) : Q :=
  let h := (describe.of_nat (length sorted - 1) * p)%Q in
  let below := nth (Z.to_nat (Qfloor h)) sorted 0%Q in
  let above := nth (Z.to_nat (Qceiling h)) sorted 0%Q in
  (below + (h - inject_Z (Qfloor h)) * (above - below))%Q.

(** A list of rationals in non-decreasing order. *)
Inductive ascending : list Q → Prop :=
| ascending_nil : ascending []
| ascending_cons x l :
    Forall (λ y, (x <= y)%Q) l → ascending l → ascending (x :: l).

(** ** Notions used in the statements *)

(** [first_at l x p]: [p] is the first position of [x] in [l]. *)
Definition first_at (l : list string) (x : string) (p : nat) : Prop :=
  l !! p = Some x ∧ ∀ p', p' < p → l !! p' ≠ Some x.

(** Actions that add no figure to the page. *)
Definition no_figure {A} (m : st.App A) : Prop :=
  ∀ session page, figures (m session page).1 = figures page.

(** A selection that a select box over the numeric columns can return. *)
Definition numeric_choice (c : option string) : Prop :=
  ∀ c', c = Some c' → c' ∈ iris_feature_names.

(** Actions that never stop at [NotEmbedded], and what they return. *)
Definition embedded {A} (m : st.App A) : Prop :=
  ∀ session shown, (m session shown).2 ≠ Raise NotEmbedded.

Definition returns {A} (m : st.App A) (P : A → Prop) : Prop :=
  ∀ session shown shown' a, m session shown = (shown', Ok a) → P a.

(** ** A frame to run the theorems on *)

Definition sample_frame : pd.DataFrame := iris_frame sample_measurements.

(** Column [j] of the sample table. *)
Definition sample_column (j : nat) : list Q :=
  (λ row, nth j row 0%Q) <$> sample_measurements.

(** A session in which the user picked the third numeric column for the
    histogram and the second species for the detail table. *)
Definition sample_session : st.Session :=
  <[hist_label := 2]> (<[species_label := 1]> ∅).

(** An action that never ends with the exception [e]. *)
Definition avoids {A} (e : exn) (m : st.App A) : Prop :=
  ∀ session shown, (m session shown).2 ≠ Raise e.

(** The number written under the detail table for a species (line 132). *)
Definition shown_count (iris_data : pd.DataFrame) (species : option string)
  : nat :=
  match species_rows iris_data species with
  | Ok species_data => pd.nrows species_data
  | Raise _ => 0
  end.

(** A session whose entry for a select box, if any, is a position of its
    option list: what the front end can hold for that box. *)
Definition in_range (session : st.Session) (label : string)
    (options : list string) : Prop :=
  ∀ p, session !! label = Some p → p < length options.


Definition labels_only_frame : pd.DataFrame :=
  {| pd.columns := [("Species", pd.Object ["setosa"; "virginica"])];
     pd.nrows := 2 |}.



(** The frame of a data set without rows. *)
Definition empty_frame : pd.DataFrame :=
  {| pd.columns := [("length", pd.Float64 []); ("width", pd.Float64 []);
                    ("Species", pd.Object [])];
     pd.nrows := 0 |}.



(** * Properties *)

(** ** Worked values *)

Example hist_demo :
  plt.counts <$> plt.hist [1; 2; 2; 3; 5]%Q 4 = Ok [1; 2; 1; 1].
Proof. reflexivity. Qed.

Example hist_demo_edges :
  plt.bin_edges <$> plt.hist [1; 2; 2; 3; 5]%Q 4
  = Ok [0 * ((5 - 1) / 4) + 1; 1 * ((5 - 1) / 4) + 1; 2 * ((5 - 1) / 4) + 1;
        3 * ((5 - 1) / 4) + 1; 5]%Q.
Proof. reflexivity. Qed.

Example quantile_demo :
  describe.quantile [4; 1; 3; 2]%Q (1 # 4) = Some (1 + (2 - 1) * (3 * (1 # 4) - 0))%Q.
Proof. reflexivity. Qed.

Lemma sample_shape : iris_shape sample_measurements.
Proof.
  split; [reflexivity|].
  unfold sample_measurements. apply Forall_fmap, Forall_forall.
  intros i _. reflexivity.
Qed.

(** ** Loading *)

Lemma forallb_row_length (k : nat) (rows : list (list Q)) :
  Forall (λ row, length row = k) rows →
  forallb (λ row, Nat.eqb (length row) k) rows = true.
Proof.
  induction 1 as [|row rows Hrow _ IH]; simpl; [done|].
  rewrite IH, Hrow, Nat.eqb_refl. done.
Qed.

Lemma load_data_iris_frame (m : list (list Q)) :
  iris_shape m → load_data (load_iris m) = Ok (iris_frame m).
Proof.
  intros [Hlen Hrows]. unfold load_data, load_iris, pd.DataFrame_of. simpl.
  rewrite (forallb_row_length 4 m Hrows). simpl.
  change (np.take iris_target_names iris_target) with (Ok iris_species).
  simpl. unfold pd.setitem. simpl.
  rewrite decide_True by (rewrite Hlen; reflexivity).
  reflexivity.
Qed.

Lemma iris_frame_wf (m : list (list Q)) : length m = 150 → pd.wf (iris_frame m).
Proof.
  intros Hlen. split.
  - unfold iris_frame. simpl.
    repeat (apply Forall_cons; split;
            [simpl; rewrite ?length_fmap, ?Hlen; reflexivity|]).
    apply Forall_nil. done.
  - apply (bool_decide_unpack _). vm_compute. exact I.
Qed.

(** C6. From scikit-learn's bunch (150 rows of four measurements, labels
    among three names) [load_data] returns a frame of exactly 150
    records whose columns are, in this fixed order, the four numeric
    measurement fields followed by the categorical field [Species]; the
    category of every record is one of the three names of the category
    set. *)
Theorem load_data_dataset_invariant (m : list (list Q)) :
  iris_shape m →
  ∃ iris_data species,
    load_data (load_iris m) = Ok iris_data ∧
    pd.wf iris_data ∧
    pd.nrows iris_data = 150 ∧
    pd.labels iris_data = iris_feature_names ++ ["Species"] ∧
    numeric_columns iris_data = iris_feature_names ∧
    length (numeric_columns iris_data) = 4 ∧
    pd.getitem iris_data "Species" = Ok (pd.Object species) ∧
    length species = pd.nrows iris_data ∧
    Forall (λ s, s ∈ iris_target_names) species ∧
    length iris_target_names = 3 ∧
    NoDup iris_target_names.
Proof.
  intros Hm. exists (iris_frame m), iris_species.
  destruct Hm as [Hlen Hrows].
  split; [by apply load_data_iris_frame|].
  split; [by apply iris_frame_wf|].
  split; [exact Hlen|].
  split; [reflexivity|].
  split; [reflexivity|].
  split; [reflexivity|].
  split; [reflexivity|].
  split; [simpl; rewrite Hlen; reflexivity|].
  split; [apply (bool_decide_unpack _); vm_compute; exact I|].
  split; [reflexivity|].
  apply (bool_decide_unpack _). vm_compute. exact I.
Qed.

Lemma load_data_dataset_invariant_witness :
  ∃ iris_data species,
    load_data (load_iris sample_measurements) = Ok iris_data ∧
    pd.wf iris_data ∧
    pd.nrows iris_data = 150 ∧
    pd.labels iris_data = iris_feature_names ++ ["Species"] ∧
    numeric_columns iris_data = iris_feature_names ∧
    length (numeric_columns iris_data) = 4 ∧
    pd.getitem iris_data "Species" = Ok (pd.Object species) ∧
    length species = pd.nrows iris_data ∧
    Forall (λ s, s ∈ iris_target_names) species ∧
    length iris_target_names = 3 ∧
    NoDup iris_target_names.
Proof. apply (load_data_dataset_invariant sample_measurements), sample_shape. Defined.

(** ** Boolean masks and records *)

Section masks.
Context {A B C : Type}.
Implicit Types (mask : list bool) (v : list string).

Lemma take_mask_nil_r mask : pd.take_mask mask (@nil A) = [].
Proof. by destruct mask. Qed.

Lemma take_mask_fmap (f : A → B) mask (l : list A) :
  pd.take_mask mask (f <$> l) = f <$> pd.take_mask mask l.
Proof.
  revert l. induction mask as [|b mask IH]; intros [|x l]; simpl; try done.
  destruct b; simpl; by rewrite IH.
Qed.

Lemma take_mask_zip_with (f : A → B → C) mask (l : list A) (k : list B) :
  pd.take_mask mask (zip_with f l k)
  = zip_with f (pd.take_mask mask l) (pd.take_mask mask k).
Proof.
  revert l k. induction mask as [|b mask IH]; intros [|x l] [|y k]; simpl;
    try done.
  all: destruct b; simpl; rewrite ?take_mask_nil_r, ?IH; try done.
  all: by destruct (pd.take_mask mask _).
Qed.

Lemma take_mask_replicate mask (n : nat) (x : A) :
  pd.take_mask mask (replicate n x)
  = replicate (pd.count_true (take n mask)) x.
Proof.
  revert n. induction mask as [|b mask IH]; intros [|n]; simpl; try done.
  destruct b; simpl; rewrite IH; done.
Qed.

Lemma take_mask_length mask (l : list A) :
  length (pd.take_mask mask l) = pd.count_true (take (length l) mask).
Proof.
  revert l. induction mask as [|b mask IH]; intros [|x l]; simpl; try done.
  destruct b; simpl; rewrite IH; done.
Qed.

Lemma take_mask_sublist mask (l : list A) : pd.take_mask mask l `sublist_of` l.
Proof.
  revert l. induction mask as [|b mask IH]; intros [|x l]; simpl;
    try apply sublist_nil_l.
  destruct b; [apply sublist_skip | apply sublist_cons]; apply IH.
Qed.

(** Masking by [column == s] keeps what stands beside an [s]. *)
Lemma take_mask_eq_mask v (s : string) (l : list A) :
  pd.take_mask (pd.eq_mask v s) l
  = (filter (λ p : string * A, p.1 = s) (zip v l)).*2.
Proof.
  revert l. induction v as [|x v IH]; intros [|y l]; simpl; try done.
  rewrite filter_cons. simpl.
  case_bool_decide; case_decide; simpl; rewrite ?IH; done.
Qed.

End masks.

Lemma take_mask_eq_mask_self (v : list string) (s : string) :
  pd.take_mask (pd.eq_mask v s) v = filter (λ x, x = s) v.
Proof.
  induction v as [|x v IH]; simpl; [done|].
  rewrite filter_cons. case_bool_decide; case_decide; rewrite ?IH; done.
Qed.

Lemma take_mask_all_false {A} (v : list string) (l : list A) :
  pd.take_mask ((λ _, false) <$> v) l = [].
Proof. revert l. induction v as [|x v IH]; intros [|y l]; simpl; done. Qed.

Lemma cells_series_mask (mask : list bool) (s : pd.Series) :
  pd.cells (pd.series_mask mask s) = pd.take_mask mask (pd.cells s).
Proof. destruct s; simpl; by rewrite take_mask_fmap. Qed.

Lemma size_series_mask (mask : list bool) (s : pd.Series) :
  pd.size (pd.series_mask mask s) = pd.count_true (take (pd.size s) mask).
Proof. destruct s; simpl; apply take_mask_length. Qed.

(** Masking the frame masks its records. *)
Lemma records_mask_rows (df : pd.DataFrame) (mask : list bool) :
  pd.records (pd.mask_rows df mask) = pd.take_mask mask (pd.records df).
Proof.
  destruct df as [cols n]. unfold pd.records, pd.mask_rows. simpl.
  induction cols as [|c cols IH]; simpl.
  - by rewrite take_mask_replicate.
  - rewrite take_mask_zip_with, <- IH, cells_series_mask. done.
Qed.

Lemma getitem_mask_rows (df : pd.DataFrame) (mask : list bool) (label : string) :
  pd.getitem (pd.mask_rows df mask) label
  = pd.series_mask mask <$> pd.getitem df label.
Proof.
  destruct df as [cols n]. unfold pd.getitem, pd.mask_rows. simpl.
  induction cols as [|[l s] cols IH]; simpl; [done|].
  case_decide; simpl; [done|]. exact IH.
Qed.

Lemma mask_rows_wf (df : pd.DataFrame) (mask : list bool) :
  pd.wf df → pd.wf (pd.mask_rows df mask).
Proof.
  intros [Hsize Hlabels]. split.
  - unfold pd.mask_rows. simpl. apply Forall_fmap.
    eapply Forall_impl; [exact Hsize|]. intros [l s] Hs. simpl in *.
    by rewrite size_series_mask, Hs.
  - unfold pd.labels, pd.mask_rows in *. simpl.
    rewrite <- list_fmap_compose.
    erewrite list_fmap_ext; [exact Hlabels|]. by intros ? [??].
Qed.

Lemma length_cells (s : pd.Series) : length (pd.cells s) = pd.size s.
Proof. destruct s; simpl; apply length_fmap. Qed.

Lemma records_length_columns (cols : list (string * pd.Series)) (n : nat) :
  Forall (λ c, pd.size c.2 = n) cols →
  length (foldr (λ c rows, zip_with cons (pd.cells c.2) rows)
                (replicate n []) cols) = n.
Proof.
  induction 1 as [|[l s] cols Hs _ IH]; simpl.
  - apply length_replicate.
  - rewrite length_zip_with, IH, length_cells. simpl in Hs. lia.
Qed.

Lemma records_length (df : pd.DataFrame) :
  pd.wf df → length (pd.records df) = pd.nrows df.
Proof. intros [Hsize _]. by apply records_length_columns. Qed.

(** ** Filtering by species *)

Lemma Forall2_zip_with_head {A} (a : list A) (rows : list (list A)) :
  length a = length rows →
  Forall2 (λ c r, head r = Some c) a (zip_with cons a rows).
Proof.
  revert rows. induction a as [|x a IH]; intros [|r rows] Hlen;
    simplify_eq/=; constructor; auto.
Qed.

Lemma Forall2_zip_with_tail {A B} (P : B → list A → Prop)
    (a : list A) (b : list B) (rows : list (list A)) :
  length a = length rows →
  Forall2 P b rows →
  Forall2 (λ c r, P c (tail r)) b (zip_with cons a rows).
Proof.
  intros Hlen HP. revert a Hlen.
  induction HP as [|y r b rows Hy _ IH]; intros [|x a] Hlen;
    simplify_eq/=; constructor; auto.
Qed.

(** In a well-formed frame, the cells of a column are the fields of the
    records under that column's label, row by row. *)
Lemma records_field (df : pd.DataFrame) (label : string) (s : pd.Series) :
  pd.wf df →
  pd.getitem df label = Ok s →
  Forall2 (λ c r, field label (pd.labels df) r = Some c)
          (pd.cells s) (pd.records df).
Proof.
  intros [Hsize _]. destruct df as [cols n].
  unfold pd.getitem, pd.records, pd.labels in *. simpl in *.
  induction Hsize as [|[l0 s0] cols Hs0 Hsize IH]; simpl; [done|].
  assert (length (pd.cells s0) = n) as Hc by by rewrite length_cells.
  pose proof (records_length_columns cols n Hsize) as Hrows.
  case_decide as Hl; intros Hget.
  - injection Hget as <-.
    eapply Forall2_impl; [apply Forall2_zip_with_head; congruence|].
    by intros c [|c' r] Hr.
  - eapply Forall2_impl.
    + apply (Forall2_zip_with_tail
               (λ c r, field label cols.*1 r = Some c)); [congruence|].
      by apply IH.
    + intros c [|c' r] Hr; simpl in *; [|done]. by destruct (cols.*1).
Qed.

Lemma filter_zip_category {A} (cat : A → option string)
    (v : list string) (rows : list A) (s : string) :
  Forall2 (λ x r, cat r = Some x) v rows →
  (filter (λ p : string * A, p.1 = s) (zip v rows)).*2
  = filter (λ r, cat r = Some s) rows.
Proof.
  induction 1 as [|x r v rows Hx _ IH]; simpl; [done|].
  rewrite !filter_cons. simpl. rewrite Hx.
  repeat case_decide; csimpl; rewrite ?IH; first [done | congruence].
Qed.

Lemma species_values_getitem (df : pd.DataFrame) (v : list string) :
  pd.getitem df "Species" = Ok (pd.Object v) → species_values df = Ok v.
Proof. unfold species_values. by intros ->. Qed.

(** C4. Filtering a frame by a species returns, in order, exactly the
    records whose [Species] field is that species; on the frame loaded
    from the 150-row bunch, filtering by "setosa" returns exactly 50
    records, every one with [Species] "setosa". *)
Theorem species_rows_filter (iris_data : pd.DataFrame) (v : list string)
    (species : string) (m : list (list Q)) :
  pd.wf iris_data →
  pd.getitem iris_data "Species" = Ok (pd.Object v) →
  iris_shape m →
  (∃ species_data,
     species_rows iris_data (Some species) = Ok species_data ∧
     pd.records species_data
       = filter (λ r, category iris_data r = Some species)
                (pd.records iris_data) ∧
     pd.records species_data `sublist_of` pd.records iris_data ∧
     pd.nrows species_data = length (pd.records species_data) ∧
     Forall (λ r, category species_data r = Some species)
            (pd.records species_data))
  ∧
  (∃ setosa_data,
     load_data (load_iris m) ≫= (λ df, species_rows df (Some "setosa"))
       = Ok setosa_data ∧
     pd.nrows setosa_data = 50 ∧
     length (pd.records setosa_data) = 50 ∧
     Forall (λ r, category setosa_data r = Some "setosa")
            (pd.records setosa_data)).
Proof.
  intros Hwf Hget Hm.
  assert (∀ df w, pd.wf df → pd.getitem df "Species" = Ok (pd.Object w) →
            Forall2 (λ x r, category df r = Some x) w (pd.records df)) as Hcat.
  { intros df w Hdf Hw. pose proof (records_field df _ _ Hdf Hw) as HF.
    simpl in HF. apply Forall2_fmap_l in HF.
    eapply Forall2_impl; [exact HF|]. intros x r Hr. unfold category.
    by rewrite Hr. }
  assert (∀ df w s, pd.wf df → pd.getitem df "Species" = Ok (pd.Object w) →
            let sub := pd.mask_rows df (pd.eq_mask w s) in
            pd.records sub
              = filter (λ r, category df r = Some s) (pd.records df) ∧
            pd.records sub `sublist_of` pd.records df ∧
            pd.nrows sub = length (pd.records sub) ∧
            Forall (λ r, category sub r = Some s) (pd.records sub)) as Hsub.
  { intros df w s Hdf Hw sub.
    assert (pd.wf sub) as Hsubwf by by apply mask_rows_wf.
    assert (pd.getitem sub "Species"
            = Ok (pd.Object (filter (λ x, x = s) w))) as Hsubget.
    { unfold sub. rewrite getitem_mask_rows, Hw. simpl.
      by rewrite take_mask_eq_mask_self. }
    split; [|split; [|split]].
    - unfold sub. rewrite records_mask_rows, take_mask_eq_mask.
      apply filter_zip_category. by apply Hcat.
    - unfold sub. rewrite records_mask_rows. apply take_mask_sublist.
    - symmetry. by apply records_length.
    - pose proof (Hcat sub _ Hsubwf Hsubget) as HF.
      eapply Forall2_Forall_r; [exact HF|].
      apply Forall_forall. by intros x [-> _]%list_elem_of_filter r Hr. }
  split.
  - exists (pd.mask_rows iris_data (pd.eq_mask v species)).
    split; [unfold species_rows; by rewrite (species_values_getitem _ v)|].
    by apply Hsub.
  - destruct Hm as [Hlen Hrows].
    exists (pd.mask_rows (iris_frame m) (pd.eq_mask iris_species "setosa")).
    rewrite load_data_iris_frame by done.
    split; [reflexivity|].
    destruct (Hsub (iris_frame m) iris_species "setosa") as (_ & _ & Hn & Hall);
      [by apply iris_frame_wf | reflexivity |].
    assert (pd.nrows (pd.mask_rows (iris_frame m)
                        (pd.eq_mask iris_species "setosa")) = 50) as H50.
    { unfold pd.mask_rows, iris_frame. simpl pd.nrows. rewrite Hlen.
      reflexivity. }
    split; [exact H50|]. split; [congruence | exact Hall].
Qed.

(** ** [unique]: distinct values in order of first appearance *)

Lemma elem_of_unique_from (seen : gset string) (l : list string) (x : string) :
  x ∈ pd.unique_from seen l ↔ x ∈ l ∧ x ∉ seen.
Proof.
  revert seen. induction l as [|y l IH]; intros seen; simpl.
  - rewrite !elem_of_nil. tauto.
  - case_decide as Hy.
    + rewrite IH, elem_of_cons. split; [tauto|].
      intros [[->|?] ?]; tauto.
    + rewrite !elem_of_cons, IH. split.
      * intros [->|[? ?]]; [tauto|]. split; [tauto|]. set_solver.
      * intros [[->|?] ?]; [tauto|].
        destruct (decide (x = y)) as [->|]; [tauto|]. right. set_solver.
Qed.

Lemma elem_of_unique (l : list string) (x : string) : x ∈ pd.unique l ↔ x ∈ l.
Proof. unfold pd.unique. rewrite elem_of_unique_from. set_solver. Qed.

Lemma NoDup_unique_from (seen : gset string) (l : list string) :
  NoDup (pd.unique_from seen l).
Proof.
  revert seen. induction l as [|y l IH]; intros seen; simpl.
  - constructor.
  - case_decide; [apply IH|]. constructor; [|apply IH].
    rewrite elem_of_unique_from. set_solver.
Qed.

Lemma NoDup_unique (l : list string) : NoDup (pd.unique l).
Proof. apply NoDup_unique_from. Qed.

Lemma unique_head (l : list string) : head (pd.unique l) = head l.
Proof. destruct l as [|x l]; [done|]. unfold pd.unique. simpl. by case_decide. Qed.

Lemma first_at_cons_ne (l : list string) (x y : string) (p : nat) :
  x ≠ y → first_at l x p → first_at (y :: l) x (S p).
Proof.
  intros Hne [Hp Hfirst]. split; [done|].
  intros [|p'] Hlt; simpl; [congruence|]. apply Hfirst. lia.
Qed.

Lemma first_at_exists (l : list string) (x : string) :
  x ∈ l → ∃ p, first_at l x p.
Proof.
  induction l as [|y l IH]; [by intros ?%elem_of_nil|].
  intros Hx. destruct (decide (x = y)) as [->|Hne].
  - exists 0. split; [done|]. intros p' ?. lia.
  - apply elem_of_cons in Hx as [?|Hx]; [done|].
    destruct (IH Hx) as [p Hp]. exists (S p). by apply first_at_cons_ne.
Qed.

(** The values come out in the order in which they first appear. *)
Lemma unique_from_order (seen : gset string) (l : list string)
    (i j : nat) (a b : string) :
  pd.unique_from seen l !! i = Some a →
  pd.unique_from seen l !! j = Some b →
  i < j →
  ∃ p q, first_at l a p ∧ first_at l b q ∧ p < q.
Proof.
  revert seen i j. induction l as [|y l IH]; intros seen i j; simpl; [done|].
  assert (∀ seen' k c, y ∈ seen' → pd.unique_from seen' l !! k = Some c →
            c ≠ y) as Hfresh.
  { intros seen' k c Hy Hc%list_elem_of_lookup_2%elem_of_unique_from.
    intros ->. tauto. }
  case_decide as Hy.
  - intros Ha Hb Hij. destruct (IH _ _ _ Ha Hb Hij) as (p & q & Hp & Hq & Hpq).
    exists (S p), (S q). split_and!; [| |lia];
      apply first_at_cons_ne; eauto.
  - destruct i as [|i], j as [|j]; simpl; try lia.
    + intros [= <-] Hb _.
      assert (b ≠ y) as Hby by (eapply Hfresh; [|done]; set_solver).
      apply list_elem_of_lookup_2, elem_of_unique_from in Hb as [Hb _].
      destruct (first_at_exists _ _ Hb) as [q Hq].
      exists 0, (S q). split_and!; [| |lia].
      * split; [done|]. intros p' ?. lia.
      * by apply first_at_cons_ne.
    + intros Ha Hb Hij.
      destruct (IH _ _ _ Ha Hb ltac:(lia)) as (p & q & Hp & Hq & Hpq).
      exists (S p), (S q). split_and!; [| |lia];
        apply first_at_cons_ne; try done;
        (eapply Hfresh; [|done]; set_solver).
Qed.

(** ** The scatter plot *)

Lemma getitem_size (df : pd.DataFrame) (label : string) (s : pd.Series) :
  pd.wf df → pd.getitem df label = Ok s → pd.size s = pd.nrows df.
Proof.
  intros [Hsize _]. unfold pd.getitem.
  induction Hsize as [|[l0 s0] cols Hs0 _ IH]; simpl; [done|].
  case_decide; [|done]. by intros [= <-].
Qed.

Lemma rmap_Ok {A B} (f : A → result B) (g : A → B) (l : list A) :
  (∀ x, x ∈ l → f x = Ok (g x)) → rmap f l = Ok (g <$> l).
Proof.
  induction l as [|x l IH]; intros Hf; simpl; [done|].
  rewrite Hf by left. simpl. rewrite IH; [done|].
  intros y Hy. apply Hf. by right.
Qed.

Lemma take_mask_eq_mask_length {A} (v : list string) (s : string) (l : list A) :
  length l = length v →
  length (pd.take_mask (pd.eq_mask v s) l) = length (filter (λ x, x = s) v).
Proof.
  revert l. induction v as [|x v IH]; intros [|y l] Hlen; simplify_eq/=;
    [done|].
  rewrite filter_cons. case_bool_decide; case_decide; simpl; try done;
    rewrite IH; done.
Qed.

Lemma sum_list_fmap_ext {A} (f g : A → nat) (u : list A) :
  (∀ y, y ∈ u → f y = g y) → sum_list (f <$> u) = sum_list (g <$> u).
Proof.
  induction u as [|s u IH]; intros Hfg; csimpl; [done|].
  rewrite Hfg by left. rewrite IH; [done|]. intros y Hy. apply Hfg. by right.
Qed.

(** Counting each value of a duplicate-free list that covers [v] counts
    every entry of [v] once. *)
Lemma sum_counts {A} `{EqDecision A} (u v : list A) :
  NoDup u → (∀ x, x ∈ v → x ∈ u) →
  sum_list ((λ s, length (filter (λ x, x = s) v)) <$> u) = length v.
Proof.
  intros Hu. induction v as [|x v IH]; intros Hcover; simpl.
  - clear Hu Hcover. induction u as [|s u IHu]; simpl; auto.
  - rewrite <- IH by (intros y Hy; apply Hcover; by right).
    assert (x ∈ u) as Hx by (apply Hcover; left).
    clear IH Hcover. induction Hu as [|s u Hs Hu IHu]; csimpl.
    + by apply elem_of_nil in Hx.
    + rewrite filter_cons. apply elem_of_cons in Hx as [->|Hx].
      * rewrite decide_True by done. simpl. do 2 f_equal.
        apply sum_list_fmap_ext. intros y Hy. rewrite filter_cons.
        rewrite decide_False; [done|]. by intros ->.
      * rewrite (IHu Hx). rewrite decide_False by (by intros ->). lia.
Qed.

(** The artist the loop draws for one species. *)
Lemma scatter_group_Ok (iris_data : pd.DataFrame) (v : list string)
    (col_x col_y : string) (xs ys : list Q) (species : string) :
  pd.wf iris_data →
  pd.getitem iris_data "Species" = Ok (pd.Object v) →
  pd.getitem iris_data col_x = Ok (pd.Float64 xs) →
  pd.getitem iris_data col_y = Ok (pd.Float64 ys) →
  scatter_group iris_data (Some col_x) (Some col_y) species
  = Ok (fig.Points (pd.take_mask (pd.eq_mask v species) xs)
                   (pd.take_mask (pd.eq_mask v species) ys)
                   species (dict_get species_colors species "gray")
                   (6 # 10) 80).
Proof.
  intros Hwf Hv Hx Hy. unfold scatter_group, species_rows.
  rewrite (species_values_getitem _ v Hv). simpl.
  rewrite !getitem_mask_rows, Hx, Hy. simpl.
  unfold fig.scatter. rewrite decide_True; [done|].
  rewrite !take_mask_length.
  apply (getitem_size _ _ _ Hwf) in Hx, Hy. simpl in Hx, Hy. congruence.
Qed.

(** C2. For numeric X and Y columns the scatter figure holds exactly one
    point-set per distinct species (no species twice), the point-sets
    together hold as many points as the frame has rows, and each
    point-set lists the (x, y) pairs of its species in row order. *)
Theorem scatter_figure_groups (iris_data : pd.DataFrame) (v : list string)
    (col_x col_y : string) (xs ys : list Q) :
  pd.wf iris_data →
  pd.getitem iris_data "Species" = Ok (pd.Object v) →
  pd.getitem iris_data col_x = Ok (pd.Float64 xs) →
  pd.getitem iris_data col_y = Ok (pd.Float64 ys) →
  ∃ f,
    scatter_figure iris_data (Some col_x) (Some col_y) = Ok f ∧
    NoDup (fig.label <$> fig.artists f) ∧
    (∀ s, s ∈ v ↔ Some s ∈ fig.label <$> fig.artists f) ∧
    sum_list ((λ a, length (fig.points a)) <$> fig.artists f)
      = pd.nrows iris_data ∧
    Forall (λ a, ∃ s, fig.label a = Some s ∧
                 fig.points a
                 = (filter (λ p : string * (Q * Q), p.1 = s)
                           (zip v (zip xs ys))).*2)
           (fig.artists f).
Proof.
  intros Hwf Hv Hx Hy.
  set (g := λ s, fig.Points (pd.take_mask (pd.eq_mask v s) xs)
                            (pd.take_mask (pd.eq_mask v s) ys)
                            s (dict_get species_colors s "gray") (6 # 10) 80).
  assert (length v = pd.nrows iris_data) as Hlv
    by apply (getitem_size _ _ _ Hwf Hv).
  assert (length xs = pd.nrows iris_data) as Hlx
    by apply (getitem_size _ _ _ Hwf Hx).
  assert (length ys = pd.nrows iris_data) as Hly
    by apply (getitem_size _ _ _ Hwf Hy).
  exists {| fig.figsize := (8, 5); fig.artists := g <$> pd.unique v;
            fig.xlabel := Some col_x; fig.ylabel := Some col_y;
            fig.legend := true |}.
  split.
  { unfold scatter_figure. rewrite (species_values_getitem _ v Hv). simpl.
    rewrite (rmap_Ok _ g); [done|]. intros s _.
    by apply scatter_group_Ok. }
  simpl. rewrite <- list_fmap_compose.
  change (fig.label ∘ g) with (@Some string).
  split; [apply (NoDup_fmap_2 _), NoDup_unique|].
  split.
  { intros s. rewrite <- elem_of_unique. split.
    - intros Hs. by apply list_elem_of_fmap_2.
    - intros (s' & [= <-] & Hs)%list_elem_of_fmap. done. }
  split.
  { rewrite <- list_fmap_compose, <- Hlv.
    rewrite <- (sum_counts (pd.unique v) v);
      [|apply NoDup_unique|intros x; apply elem_of_unique].
    apply sum_list_fmap_ext. intros s _. unfold g. simpl.
    rewrite length_zip_with, !take_mask_eq_mask_length by lia. lia. }
  apply Forall_fmap, Forall_forall. intros s _. exists s. split; [done|].
  unfold g. simpl. rewrite <- take_mask_eq_mask.
  symmetry. apply take_mask_zip_with.
Qed.

(** ** Colours *)

Ltac inv_bind H :=
  repeat match type of H with
         | mbind _ ?r = Ok _ =>
             let E := fresh "E" in
             destruct r eqn:E; simpl in H; [|discriminate H]
         | match ?r with Ok _ => _ | Raise _ => _ end = Ok _ =>
             let E := fresh "E" in
             destruct r eqn:E; simpl in H; [|discriminate H]
         end.

Lemma rmap_inv {A B} (f : A → result B) (l : list A) (r : list B) :
  rmap f l = Ok r → Forall2 (λ x y, f x = Ok y) l r.
Proof.
  revert r. induction l as [|x l IH]; intros r H; simpl in H.
  - injection H as <-. constructor.
  - inv_bind H. injection H as <-. constructor; [done|]. by apply IH.
Qed.

Lemma scatter_group_inv (iris_data : pd.DataFrame) (col_x col_y : option string)
    (species : string) (a : fig.Artist) :
  scatter_group iris_data col_x col_y species = Ok a →
  fig.label a = Some species ∧
  fig.color a = dict_get species_colors species "gray".
Proof.
  unfold scatter_group. intros H. inv_bind H. unfold fig.scatter in H.
  case_decide; [|done]. by injection H as <-.
Qed.



(** ** Select boxes *)

Lemma selectbox_untouched (label : string) (options : list string)
    (index : nat) (session : st.Session) (page : list st.Element) :
  session !! label = None →
  options = [] ∨ index < length options →
  st.selectbox label options index session page
  = (page ++ [st.select_widget label options index], Ok (options !! index)).
Proof.
  intros Hnone Hindex. unfold st.selectbox.
  rewrite decide_False by (destruct Hindex as [->|?]; simpl; lia).
  rewrite Hnone. simpl. destruct options as [|o options]; [done|].
  destruct Hindex as [?|Hindex]; [done|].
  by destruct (lookup_lt_is_Some_2 _ _ Hindex) as [x ->].
Qed.

Lemma selectbox_chosen (label : string) (options : list string)
    (index p : nat) (v : string) (session : st.Session)
    (page : list st.Element) :
  session !! label = Some p →
  options !! p = Some v →
  index < length options →
  st.selectbox label options index session page
  = (page ++ [st.select_widget label options index], Ok (Some v)).
Proof.
  intros Hp Hv Hindex. unfold st.selectbox.
  rewrite decide_False by lia. rewrite Hp. simpl. rewrite Hv.
  by destruct options.
Qed.

(** Whatever the session holds, a select box returns one of its options. *)
Lemma selectbox_in_options (label : string) (options : list string)
    (index : nat) (session : st.Session) (page page' : list st.Element)
    (v : string) :
  st.selectbox label options index session page = (page', Ok (Some v)) →
  v ∈ options.
Proof.
  unfold st.selectbox. case_decide; [done|].
  destruct options as [|o options]; [done|].
  destruct (_ !! _) as [x|] eqn:E; [|done].
  intros [= _ <-]. by apply list_elem_of_lookup_2 in E.
Qed.


Lemma species_select_untouched (iris_data : pd.DataFrame)
    (page : list st.Element) (v : list string) :
  pd.getitem iris_data "Species" = Ok (pd.Object v) →
  (species_select iris_data ∅ page).2 = Ok (pd.unique v !! 0).
Proof.
  intros Hv. unfold species_select. simpl. unfold mbind, app_bind. simpl.
  rewrite (species_values_getitem _ v Hv). simpl.
  rewrite selectbox_untouched; try done.
  destruct (pd.unique v); simpl; auto with lia.
Qed.


(** ** Order of the species *)

Lemma scatter_figure_labels (iris_data : pd.DataFrame) (v : list string)
    (col_x col_y : option string) (f : fig.Figure) :
  pd.getitem iris_data "Species" = Ok (pd.Object v) →
  scatter_figure iris_data col_x col_y = Ok f →
  fig.label <$> fig.artists f = Some <$> pd.unique v.
Proof.
  intros Hv Hf. unfold scatter_figure in Hf.
  rewrite (species_values_getitem _ v Hv) in Hf. simpl in Hf.
  inv_bind Hf. injection Hf as <-. simpl.
  apply rmap_inv in E. induction E as [|s art u arts Hs _ IH]; csimpl; [done|].
  apply scatter_group_inv in Hs as [-> _]. by rewrite IH.
Qed.

Lemma species_select_page (iris_data : pd.DataFrame) (v : list string)
    (session : st.Session) (page : list st.Element) :
  pd.getitem iris_data "Species" = Ok (pd.Object v) →
  (species_select iris_data session page).1
  = page ++ [st.header "🔍 Data by Species";
             st.select_widget species_label (pd.unique v) 0].
Proof.
  intros Hv. unfold species_select. simpl. unfold mbind, app_bind. simpl.
  rewrite (species_values_getitem _ v Hv). simpl. unfold st.selectbox.
  rewrite decide_False by lia. rewrite <- app_assoc. simpl.
  destruct (pd.unique v); [done|]. by destruct (_ !! _).
Qed.

Lemma select_boxes_app (page page' : list st.Element) :
  select_boxes (page ++ page') = select_boxes page ++ select_boxes page'.
Proof. apply omap_app. Qed.

(** C10. The scatter figure draws the species in the order in which each
    first occurs among the rows, the species select box offers them in
    that same order, and so its default is the species of the first
    row. *)
Theorem species_first_occurrence_order (iris_data : pd.DataFrame)
    (v : list string) (col_x col_y : option string) (f : fig.Figure)
    (session : st.Session) (page : list st.Element) :
  pd.getitem iris_data "Species" = Ok (pd.Object v) →
  scatter_figure iris_data col_x col_y = Ok f →
  fig.label <$> fig.artists f = Some <$> pd.unique v ∧
  select_boxes (species_select iris_data session page).1
    = select_boxes page ++ [(species_label, pd.unique v)] ∧
  (∀ i j a b,
     pd.unique v !! i = Some a → pd.unique v !! j = Some b → i < j →
     ∃ p q, first_at v a p ∧ first_at v b q ∧ p < q) ∧
  (∀ a, a ∈ v → a ∈ pd.unique v) ∧
  (species_select iris_data ∅ page).2 = Ok (head v).
Proof.
  intros Hv Hf. split_and!.
  - by eapply scatter_figure_labels.
  - rewrite (species_select_page _ v) by done.
    by rewrite select_boxes_app.
  - intros i j a b. apply unique_from_order.
  - intros a. apply elem_of_unique.
  - rewrite (species_select_untouched _ _ v Hv).
    rewrite <- unique_head. by destruct (pd.unique v).
Qed.

(** ** The charts do not depend on the species select box *)

Lemma figures_app (page page' : list st.Element) :
  figures (page ++ page') = figures page ++ figures page'.
Proof. apply omap_app. Qed.

Lemma emit_eq (e : st.Element) (session : st.Session) (page : list st.Element) :
  st.emit e session page = (page ++ [e], Ok ()).
Proof. reflexivity. Qed.

(** The overview and the charts never read the session. *)
Lemma overview_session (iris_data : pd.DataFrame) (s1 s2 : st.Session)
    (page : list st.Element) :
  overview iris_data s1 page = overview iris_data s2 page.
Proof.
  unfold overview. simpl. unfold mbind, app_bind, st.lift. simpl.
  by destruct (species_values iris_data).
Qed.

Lemma charts_session (iris_data : pd.DataFrame) (sel : Selection)
    (s1 s2 : st.Session) (page : list st.Element) :
  charts iris_data sel s1 page = charts iris_data sel s2 page.
Proof.
  unfold charts. simpl. unfold mbind, app_bind, st.lift. simpl.
  destruct (histogram_figure _ _ _); [|done]. simpl.
  by destruct (scatter_figure _ _ _).
Qed.

(** A select box reads the session at its own label only. *)
Lemma selectbox_session (label : string) (options : list string) (index : nat)
    (s1 s2 : st.Session) (page : list st.Element) :
  s1 !! label = s2 !! label →
  st.selectbox label options index s1 page
  = st.selectbox label options index s2 page.
Proof. intros H. unfold st.selectbox. by rewrite H. Qed.

Lemma sidebar_session (iris_data : pd.DataFrame) (s1 s2 : st.Session)
    (page : list st.Element) :
  s1 !! hist_label = s2 !! hist_label →
  s1 !! x_label = s2 !! x_label →
  s1 !! y_label = s2 !! y_label →
  sidebar iris_data s1 page = sidebar iris_data s2 page.
Proof.
  intros Hh Hx Hy. unfold sidebar. simpl. unfold mbind, app_bind. simpl.
  rewrite (selectbox_session hist_label _ _ s1 s2) by done.
  destruct (st.selectbox hist_label _ _ _ _) as [p1 [c1|e1]]; [|done].
  rewrite (selectbox_session x_label _ _ s1 s2) by done.
  destruct (st.selectbox x_label _ _ _ _) as [p2 [c2|e2]]; [|done].
  rewrite (selectbox_session y_label _ _ s1 s2) by done.
  by destruct (st.selectbox y_label _ _ _ _) as [p3 [c3|e3]].
Qed.

Lemma no_figure_bind {A B} (m : st.App A) (k : A → st.App B) :
  no_figure m → (∀ a, no_figure (k a)) → no_figure (m ≫= k).
Proof.
  intros Hm Hk session page. unfold mbind, app_bind.
  specialize (Hm session page).
  destruct (m session page) as [page' [a|e]]; simpl in *; [|done].
  by rewrite Hk.
Qed.

Lemma no_figure_lift {A} (r : result A) : no_figure (st.lift r).
Proof. by intros session page. Qed.

Lemma no_figure_selectbox (label : string) (options : list string)
    (index : nat) :
  no_figure (st.selectbox label options index).
Proof.
  intros session page. unfold st.selectbox. case_decide; [done|].
  assert (figures (page ++ [st.select_widget label options index])
          = figures page) as Hp by (rewrite figures_app; apply app_nil_r).
  destruct options; [done|]. by destruct (_ !! _).
Qed.

Lemma no_figure_emit (e : st.Element) :
  figures [e] = [] → no_figure (st.emit e).
Proof.
  intros He session page. simpl. rewrite figures_app, He. apply app_nil_r.
Qed.

(** The species section adds no figure to the page. *)
Lemma species_detail_figures (iris_data : pd.DataFrame) (session : st.Session)
    (page : list st.Element) :
  figures (species_detail iris_data session page).1 = figures page.
Proof.
  revert session page. change (no_figure (species_detail iris_data)).
  unfold species_detail, species_select.
  repeat first
    [ apply no_figure_bind; [|intros ?]
    | apply no_figure_lift
    | apply no_figure_selectbox
    | by apply no_figure_emit ].
Qed.

Ltac solve_no_figure :=
  repeat first
    [ apply no_figure_bind; [|intros ?]
    | apply no_figure_lift
    | apply no_figure_selectbox
    | by apply no_figure_emit ].

Lemma overview_figures (iris_data : pd.DataFrame) : no_figure (overview iris_data).
Proof. unfold overview. solve_no_figure. Qed.

Lemma sidebar_figures (iris_data : pd.DataFrame) : no_figure (sidebar iris_data).
Proof. unfold sidebar. solve_no_figure. Qed.

(** The figures that the chart section adds are those of the whole frame
    [iris_data] for the selection it is given. *)
Lemma charts_figures (iris_data : pd.DataFrame) (sel : Selection)
    (session : st.Session) (page page' : list st.Element) :
  charts iris_data sel session page = (page', Ok ()) →
  ∃ fig_hist fig_scatter,
    histogram_figure iris_data (selected_column_hist sel) 20 = Ok fig_hist ∧
    scatter_figure iris_data (col_x sel) (col_y sel) = Ok fig_scatter ∧
    figures page' = figures page ++ [fig_hist; fig_scatter].
Proof.
  unfold charts. simpl. unfold mbind, app_bind, st.lift. simpl.
  destruct (histogram_figure _ _ _) as [fh|]; simpl; [|done].
  destruct (scatter_figure _ _ _) as [fs|]; simpl; [|done].
  intros [= <-]. exists fh, fs. split; [done|]. split; [done|].
  rewrite !figures_app. simpl. by rewrite !app_nil_r, <- app_assoc.
Qed.

Lemma page_session (iris_data : pd.DataFrame) (s1 s2 : st.Session)
    (shown : list st.Element) :
  s1 !! hist_label = s2 !! hist_label →
  s1 !! x_label = s2 !! x_label →
  s1 !! y_label = s2 !! y_label →
  figures (page iris_data s1 shown).1 = figures (page iris_data s2 shown).1.
Proof.
  intros Hh Hx Hy. unfold page. unfold mbind, app_bind.
  rewrite (overview_session iris_data s1 s2).
  destruct (overview iris_data s2 shown) as [p1 [[]|e1]]; [|done].
  rewrite (sidebar_session iris_data s1 s2) by done.
  destruct (sidebar iris_data s2 p1) as [p2 [sel|e2]]; [|done].
  rewrite (charts_session iris_data sel s1 s2).
  destruct (charts iris_data sel s2 p2) as [p3 [[]|e3]]; [|done].
  by rewrite !species_detail_figures.
Qed.

(** C8. Two runs on the same bunch whose sessions agree on the three
    sidebar select boxes show the same figures, whatever each session
    holds for the species select box; and in a run that completes, the
    two figures are the histogram and the scatter figure of the whole
    loaded frame. *)
Theorem charts_ignore_species_filter (iris : Bunch) (s1 s2 : st.Session) :
  s1 !! hist_label = s2 !! hist_label →
  s1 !! x_label = s2 !! x_label →
  s1 !! y_label = s2 !! y_label →
  figures (run iris s1).1 = figures (run iris s2).1 ∧
  (∀ iris_data,
     load_data iris = Ok iris_data →
     (run iris s1).2 = Ok () →
     ∃ sel fig_hist fig_scatter,
       figures (run iris s1).1 = [fig_hist; fig_scatter] ∧
       histogram_figure iris_data (selected_column_hist sel) 20 = Ok fig_hist ∧
       scatter_figure iris_data (col_x sel) (col_y sel) = Ok fig_scatter).
Proof.
  intros Hh Hx Hy. unfold run, app. simpl. unfold mbind, app_bind, st.lift.
  simpl. split.
  - destruct (load_data iris) as [iris_data|e]; [|done].
    by apply page_session.
  - intros iris_data -> Hok. unfold page in *. unfold mbind, app_bind in *.
    pose proof (overview_figures iris_data s1) as H1.
    match type of Hok with context [overview iris_data s1 ?p] =>
      specialize (H1 p); destruct (overview iris_data s1 p) as [p1 [[]|e1]]
    end; [|done].
    pose proof (sidebar_figures iris_data s1 p1) as H2.
    destruct (sidebar iris_data s1 p1) as [p2 [sel|e2]]; [|done].
    destruct (charts iris_data sel s1 p2) as [p3 [[]|e3]] eqn:Ec; [|done].
    apply charts_figures in Ec as (fh & fs & Hfh & Hfs & Hp3).
    exists sel, fh, fs. split; [|done].
    rewrite species_detail_figures, Hp3. simpl in *. by rewrite H2, H1.
Qed.

(** ** The histogram *)


Lemma foldl_Qmin_le (a : Q) (l : list Q) :
  (foldl Qmin a l <= a)%Q ∧ Forall (λ v, (foldl Qmin a l <= v)%Q) l.
Proof.
  revert a. induction l as [|x l IH]; intros a; simpl.
  - split; [apply Qle_refl | constructor].
  - destruct (IH (Qmin a x)) as [Ha Hl]. split; [|constructor; [|done]].
    + eapply Qle_trans; [exact Ha | apply Q.le_min_l].
    + eapply Qle_trans; [exact Ha | apply Q.le_min_r].
Qed.

Lemma foldl_Qmax_le (a : Q) (l : list Q) :
  (a <= foldl Qmax a l)%Q ∧ Forall (λ v, (v <= foldl Qmax a l)%Q) l.
Proof.
  revert a. induction l as [|x l IH]; intros a; simpl.
  - split; [apply Qle_refl | constructor].
  - destruct (IH (Qmax a x)) as [Ha Hl]. split; [|constructor; [|done]].
    + eapply Qle_trans; [apply Q.le_max_l | exact Ha].
    + eapply Qle_trans; [apply Q.le_max_r | exact Ha].
Qed.

Lemma foldl_Qmin_elem (a : Q) (l : list Q) : foldl Qmin a l ∈ a :: l.
Proof.
  revert a. induction l as [|x l IH]; intros a; simpl; [left|].
  specialize (IH (Qmin a x)). apply elem_of_cons in IH as [->|IH].
  - unfold Qmin, GenericMinMax.gmin. destruct (a ?= x)%Q; set_solver.
  - set_solver.
Qed.

Lemma foldl_Qmax_elem (a : Q) (l : list Q) : foldl Qmax a l ∈ a :: l.
Proof.
  revert a. induction l as [|x l IH]; intros a; simpl; [left|].
  specialize (IH (Qmax a x)). apply elem_of_cons in IH as [->|IH].
  - unfold Qmax, GenericMinMax.gmax. destruct (a ?= x)%Q; set_solver.
  - set_solver.
Qed.

(** [amin] and [amax] are the least and the greatest value of the array. *)
Lemma amin_spec (a : list Q) (lo : Q) :
  plt.amin a = Some lo → lo ∈ a ∧ Forall (λ v, (lo <= v)%Q) a.
Proof.
  destruct a as [|x a]; [done|]. intros [= <-]. split.
  - apply foldl_Qmin_elem.
  - destruct (foldl_Qmin_le x a). by constructor.
Qed.

Lemma amax_spec (a : list Q) (hi : Q) :
  plt.amax a = Some hi → hi ∈ a ∧ Forall (λ v, (v <= hi)%Q) a.
Proof.
  destruct a as [|x a]; [done|]. intros [= <-]. split.
  - apply foldl_Qmax_elem.
  - destruct (foldl_Qmax_le x a). by constructor.
Qed.

Lemma inject_Z_le (i j : Z) : (inject_Z i <= inject_Z j)%Q ↔ (i ≤ j)%Z.
Proof. by rewrite <- Zle_Qle. Qed.

(** An integer is below [q] exactly when it is below the floor of [q]. *)
Lemma floor_ge (i : Z) (q : Q) : (inject_Z i <= q)%Q ↔ (i ≤ Qfloor q)%Z.
Proof.
  split.
  - intros H. rewrite <- (Qfloor_Z i). by apply Qfloor_resp_le.
  - intros H. eapply Qle_trans; [|apply Qfloor_le]. by apply inject_Z_le.
Qed.


Section bins.
Variables (first_edge last_edge : Q) (bins : nat).
Hypothesis Hwidth : (first_edge < last_edge)%Q.
Hypothesis Hbins : 1 ≤ bins.

Let nbins : Q := inject_Z (Z.of_nat bins).
Let step : Q := ((last_edge - first_edge) / nbins)%Q.
Let edges : list Q := plt.linspace first_edge last_edge bins.













End bins.







Lemma filter_all {A} (p : A → bool) (l : list A) :
  Forall (λ x, p x = true) l → List.filter p l = l.
Proof. induction 1 as [|x l Hx _ IH]; simpl; [done|]. by rewrite Hx, IH. Qed.




(** ** Summary statistics *)

Lemma insort_perm (x : Q) (l : list Q) : describe.insort x l ≡ₚ x :: l.
Proof.
  induction l as [|y l IH]; simpl; [done|].
  destruct (Qle_bool x y); [done|]. rewrite IH. apply Permutation_swap.
Qed.

Lemma sort_perm (a : list Q) : describe.sort a ≡ₚ a.
Proof.
  induction a as [|x a IH]; simpl; [done|].
  unfold describe.sort in *. simpl. by rewrite insort_perm, IH.
Qed.

Lemma length_sort (a : list Q) : length (describe.sort a) = length a.
Proof. apply Permutation_length, sort_perm. Qed.

Lemma insort_ascending (x : Q) (l : list Q) :
  ascending l → ascending (describe.insort x l).
Proof.
  induction 1 as [|y l Hy Hl IH]; simpl.
  - constructor; constructor.
  - destruct (Qle_bool x y) eqn:Hxy.
    + apply Qle_bool_iff in Hxy. constructor; [|by constructor].
      constructor; [done|]. eapply Forall_impl; [exact Hy|].
      intros z Hz. simpl in Hz. by eapply Qle_trans.
    + constructor; [|done].
      assert (y <= x)%Q as Hyx.
      { apply Qlt_le_weak, Qnot_le_lt. intros H%Qle_bool_iff. congruence. }
      rewrite insort_perm. by constructor.
Qed.

Lemma sort_ascending (a : list Q) : ascending (describe.sort a).
Proof.
  induction a as [|x a IH]; [constructor|]. by apply insort_ascending.
Qed.

Lemma nth_elem_of (l : list Q) (i : nat) : i < length l → nth i l 0%Q ∈ l.
Proof.
  intros Hi. rewrite nth_lookup.
  destruct (lookup_lt_is_Some_2 _ _ Hi) as [x Hx]. rewrite Hx. simpl.
  by eapply list_elem_of_lookup_2.
Qed.

(** Interpolating between two values of an interval stays inside it. *)
Lemma lerp_bounds (lo hi a b t : Q) :
  (lo <= a)%Q → (a <= hi)%Q → (lo <= b)%Q → (b <= hi)%Q →
  (0 <= t)%Q → (t <= 1)%Q →
  (lo <= describe.lerp a b t)%Q ∧ (describe.lerp a b t <= hi)%Q.
Proof.
  intros. unfold describe.lerp.
  assert (describe_lerp : ∀ r : Q, r == a + (b - a) * t →
            (lo <= r)%Q ∧ (r <= hi)%Q).
  { intros r ->. split; nra. }
  destruct (Qle_bool (1 # 2) t); apply describe_lerp; ring.
Qed.

Lemma of_nat_le (i j : nat) :
  (describe.of_nat i <= describe.of_nat j)%Q ↔ i ≤ j.
Proof. unfold describe.of_nat. rewrite inject_Z_le. lia. Qed.

Lemma lerp_eq (a b t : Q) : (describe.lerp a b t == a + (b - a) * t)%Q.
Proof. unfold describe.lerp. destruct (Qle_bool (1 # 2) t); ring. Qed.

Lemma ceiling_floor (h : Q) :
  (Qceiling h = Qfloor h ∧ h == inject_Z (Qfloor h))
  ∨ Qceiling h = (Qfloor h + 1)%Z.
Proof.
  pose proof (Qfloor_le h) as Hf. pose proof (Qlt_floor h) as Hf'.
  pose proof (Qle_ceiling h) as Hc. pose proof (Qceiling_lt h) as Hc'.
  assert (Qfloor h ≤ Qceiling h)%Z as H1.
  { apply inject_Z_le. by eapply Qle_trans. }
  assert (Qceiling h - 1 < Qfloor h + 1)%Z as H2.
  { rewrite Zlt_Qlt. by eapply Qlt_trans. }
  destruct (decide (Qceiling h = Qfloor h)) as [Heq|Hne]; [left|right; lia].
  split; [done|]. rewrite Heq in Hc. by apply Qle_antisym.
Qed.

(** [quantile] interpolates linearly between closest ranks, and its value
    lies between the least and the greatest value of the array. *)
Lemma quantile_spec (a : list Q) (q lo hi : Q) :
  (0 <= q)%Q → (q <= 1)%Q →
  plt.amin a = Some lo → plt.amax a = Some hi →
  ∃ v, describe.quantile a q = Some v ∧
       (lo <= v)%Q ∧ (v <= hi)%Q ∧
       (v == linear_percentile (describe.sort a) q)%Q.
Proof.
  intros Hq0 Hq1 Hlo Hhi.
  destruct (amin_spec _ _ Hlo) as [_ Hmin].
  destruct (amax_spec _ _ Hhi) as [_ Hmax].
  assert (∀ i, i < length a →
            (lo <= nth i (describe.sort a) 0)%Q
            ∧ (nth i (describe.sort a) 0 <= hi)%Q) as Hnth.
  { intros i Hi. rewrite <- length_sort in Hi.
    apply nth_elem_of in Hi.
    apply (elem_of_Permutation_proper _ _ _ (sort_perm a)) in Hi.
    rewrite Forall_forall in Hmin, Hmax. split; [by apply Hmin|by apply Hmax]. }
  assert (1 ≤ length a) as Hn by (destruct a; [done|simpl; lia]).
  unfold describe.quantile, linear_percentile. rewrite length_sort.
  destruct a as [|x a'] eqn:Ea; [done|]. rewrite <- Ea in *. cbv zeta.
  remember (length a) as n eqn:En.
  set (h := (describe.of_nat (n - 1) * q)%Q).
  assert (0 <= describe.of_nat (n - 1))%Q as Hn0
    by (apply (proj2 (of_nat_le 0 (n - 1))); lia).
  assert (0 <= h)%Q as Hh0 by (unfold h; nra).
  assert (h <= describe.of_nat (n - 1))%Q as Hh1 by (unfold h; nra).
  assert (0 ≤ Qfloor h)%Z as Hf0
    by (apply floor_ge; by change (inject_Z 0) with 0%Q).
  assert (describe.of_nat (Z.to_nat (Qfloor h)) = inject_Z (Qfloor h)) as Hof
    by (unfold describe.of_nat; by rewrite Z2Nat.id).
  rewrite Hof.
  pose proof (Qfloor_le h) as Hfl. pose proof (Qlt_floor h) as Hfl'.
  rewrite inject_Z_plus in Hfl'. change (inject_Z 1) with 1%Q in Hfl'.
  eexists. split; [reflexivity|].
  destruct (Qle_bool (describe.of_nat (n - 1)) h) eqn:Hend.
  - apply Qle_bool_iff in Hend.
    assert (h == describe.of_nat (n - 1))%Q as Heq by by apply Qle_antisym.
    assert (Qfloor h = Z.of_nat (n - 1)) as Hfloor
      by (rewrite (Qfloor_comp _ _ Heq); apply Qfloor_Z).
    assert (Z.to_nat (Qfloor h) = n - 1) as Hidx by lia.
    destruct (Hnth (n - 1)) as [H1 H2]; [lia|].
    destruct (lerp_bounds lo hi (nth (n - 1) (describe.sort a) 0%Q)
                (nth (n - 1) (describe.sort a) 0%Q)
                (h - inject_Z (Qfloor h))) as [Hb1 Hb2]; try done; try lra.
    split_and!; [done|done|].
    rewrite lerp_eq, Hidx.
    assert (h - inject_Z (Qfloor h) == 0)%Q as ->; [|ring].
    rewrite Hfloor. fold (describe.of_nat (n - 1)). lra.
  - assert (h < describe.of_nat (n - 1))%Q as Hlt.
    { apply Qnot_le_lt. intros H%Qle_bool_iff. congruence. }
    assert (Z.to_nat (Qfloor h) < n - 1) as Hidx.
    { assert (Qfloor h < Z.of_nat (n - 1))%Z; [|lia].
      rewrite Zlt_Qlt. eapply Qle_lt_trans; [exact Hfl|exact Hlt]. }
    destruct (Hnth (Z.to_nat (Qfloor h))) as [H1 H2]; [lia|].
    destruct (Hnth (Z.to_nat (Qfloor h) + 1)) as [H3 H4]; [lia|].
    destruct (lerp_bounds lo hi (nth (Z.to_nat (Qfloor h)) (describe.sort a) 0%Q)
                (nth (Z.to_nat (Qfloor h) + 1) (describe.sort a) 0%Q)
                (h - inject_Z (Qfloor h))) as [Hb1 Hb2]; try done; try lra.
    split_and!; [done|done|].
    rewrite lerp_eq.
    destruct (ceiling_floor h) as [[Hc Hint]| ->].
    + rewrite Hc. assert (h - inject_Z (Qfloor h) == 0)%Q as -> by lra. ring.
    + replace (Z.to_nat (Qfloor h + 1)) with (Z.to_nat (Qfloor h) + 1) by lia.
      ring.
Qed.

Lemma sum_nonneg (l : list Q) : Forall (λ v, (0 <= v)%Q) l → (0 <= describe.sum l)%Q.
Proof.
  induction 1 as [|v l Hv _ IH]; simpl; [apply Qle_refl|].
  unfold describe.sum in *. simpl. lra.
Qed.

Lemma sum_fmap_Qeq {A} (f g : A → Q) (l : list A) :
  (∀ v, f v == g v) → describe.sum (f <$> l) == describe.sum (g <$> l).
Proof.
  intros Hfg. unfold describe.sum.
  induction l as [|v l IH]; csimpl; [reflexivity|]. by rewrite IH, Hfg.
Qed.

Lemma of_nat_pred (n : nat) :
  1 ≤ n → (describe.of_nat (n - 1) == describe.of_nat n - 1)%Q.
Proof.
  intros Hn. unfold describe.of_nat.
  replace (Z.of_nat (n - 1)) with (Z.of_nat n + -1)%Z by lia.
  rewrite inject_Z_plus. change (inject_Z (-1)) with (-1)%Q. ring.
Qed.

(** [nanvar] with [ddof = 1] is the sample variance, and is not negative. *)
Lemma nanvar_sample (a : list Q) :
  2 ≤ length a →
  ∃ v, describe.nanvar a 1 = Some v ∧
       (v == sample_variance a)%Q ∧ (0 <= v)%Q.
Proof.
  intros Hn. unfold describe.nanvar. rewrite decide_False by lia.
  eexists. split; [reflexivity|].
  assert (0 < describe.of_nat (length a - 1))%Q as Hpos.
  { apply Qnot_le_lt. intros H.
    apply (proj1 (of_nat_le (length a - 1) 0)) in H. lia. }
  split.
  - unfold sample_variance. rewrite <- of_nat_pred by lia.
    apply Qmult_comp; [|reflexivity].
    apply sum_fmap_Qeq. intros v. ring.
  - apply Qle_shift_div_l; [done|]. rewrite Qmult_0_l.
    apply sum_nonneg, Forall_fmap, Forall_forall. intros v _. simpl.
    generalize (describe.sum a / describe.of_nat (length a) - v)%Q.
    intros y. nra.
Qed.

Lemma to_R_sqrt (r : describe.Root) :
  (0 <= describe.radicand r)%Q →
  (0 <= describe.to_R r)%R
  ∧ (describe.to_R r * describe.to_R r = Q2R (describe.radicand r))%R.
Proof.
  intros Hr. unfold describe.to_R. split; [apply sqrt_pos|].
  apply sqrt_sqrt. change 0%R with (Q2R 0) || rewrite <- RMicromega.Q2R_0.
  by apply Qle_Rle.
Qed.

Lemma lookup_column_elem_of (label : string) (cols : list (string * pd.Series))
    (s : pd.Series) :
  pd.lookup_column label cols = Some s → (label, s) ∈ cols.
Proof.
  induction cols as [|[l0 s0] cols IH]; simpl; [done|].
  case_decide as Hl; simpl in Hl.
  - intros [= <-]. subst. left.
  - intros H. right. by apply IH.
Qed.

Lemma describe_labels (df : pd.DataFrame) :
  (describe.describe df).*1 = numeric_columns df.
Proof.
  unfold describe.describe, numeric_columns, pd.select_number_labels.
  induction (pd.columns df) as [|[l s] cols IH]; [done|].
  destruct s; csimpl; by rewrite ?IH.
Qed.

(** C3. The summary table has one entry per numeric field.  In the entry
    of a numeric field of a frame with at least two rows, the count is
    the number of rows; the minimum is at most each of the three
    quartiles and each quartile at most the maximum; the quartiles are
    the linear-interpolation percentiles of the sorted values; and the
    standard deviation is the non-negative root of the sample variance
    (squared deviations from the mean over [n - 1]). *)
Theorem describe_summary (iris_data : pd.DataFrame) (field : string)
    (x : list Q) :
  pd.wf iris_data →
  pd.getitem iris_data field = Ok (pd.Float64 x) →
  2 ≤ pd.nrows iris_data →
  (describe.describe iris_data).*1 = numeric_columns iris_data ∧
  ∃ stats lo q1 q2 q3 hi sd,
    (field, stats) ∈ describe.describe iris_data ∧
    describe.count stats = pd.nrows iris_data ∧
    describe.min stats = Some lo ∧
    describe.pct25 stats = Some q1 ∧
    describe.pct50 stats = Some q2 ∧
    describe.pct75 stats = Some q3 ∧
    describe.max stats = Some hi ∧
    ((lo <= q1)%Q ∧ (q1 <= hi)%Q) ∧
    ((lo <= q2)%Q ∧ (q2 <= hi)%Q) ∧
    ((lo <= q3)%Q ∧ (q3 <= hi)%Q) ∧
    (q1 == linear_percentile (describe.sort x) (1 # 4))%Q ∧
    (q2 == linear_percentile (describe.sort x) (1 # 2))%Q ∧
    (q3 == linear_percentile (describe.sort x) (3 # 4))%Q ∧
    describe.sort x ≡ₚ x ∧ ascending (describe.sort x) ∧
    describe.std stats = Some sd ∧
    (describe.radicand sd == sample_variance x)%Q ∧
    (0 <= describe.to_R sd)%R ∧
    (describe.to_R sd * describe.to_R sd = Q2R (sample_variance x))%R.
Proof.
  intros Hwf Hget Hrows.
  pose proof (getitem_size _ _ _ Hwf Hget) as Hlen. simpl in Hlen.
  split; [apply describe_labels|].
  destruct (plt.amin x) as [lo|] eqn:Hlo;
    [|destruct x; [simpl in Hlen; lia|done]].
  destruct (plt.amax x) as [hi|] eqn:Hhi;
    [|destruct x; [simpl in Hlen; lia|done]].
  destruct (quantile_spec x (1 # 4) lo hi) as (q1 & Hq1 & ? & ? & ?);
    [lra|lra|done|done|].
  destruct (quantile_spec x (1 # 2) lo hi) as (q2 & Hq2 & ? & ? & ?);
    [lra|lra|done|done|].
  destruct (quantile_spec x (3 # 4) lo hi) as (q3 & Hq3 & ? & ? & ?);
    [lra|lra|done|done|].
  destruct (nanvar_sample x) as (v & Hv & Hvs & Hv0); [lia|].
  exists (describe.describe_1d x), lo, q1, q2, q3, hi, (describe.sqrt_of v).
  split.
  { unfold describe.describe. apply list_elem_of_omap.
    exists (field, pd.Float64 x). split; [|done].
    unfold pd.getitem in Hget.
    destruct (pd.lookup_column field (pd.columns iris_data)) as [s|] eqn:E;
      [|done].
    injection Hget as ->. by apply lookup_column_elem_of. }
  unfold describe.describe_1d. simpl.
  split_and!; try done.
  - apply sort_perm.
  - apply sort_ascending.
  - unfold describe.nanstd. by rewrite Hv.
  - by apply to_R_sqrt.
  - destruct (to_R_sqrt (describe.sqrt_of v) Hv0) as [_ ->]. simpl.
    by apply Qeq_eqR.
Qed.

(** ** Selections and their domains *)



Lemma sidebar_inv (iris_data : pd.DataFrame) (session : st.Session)
    (shown shown' : list st.Element) (sel : Selection) :
  sidebar iris_data session shown = (shown', Ok sel) →
  ∃ p1 p1' p2 p2' p3 p3',
    st.selectbox hist_label (numeric_columns iris_data) 0 session p1
      = (p1', Ok (selected_column_hist sel)) ∧
    st.selectbox x_label (numeric_columns iris_data) 0 session p2
      = (p2', Ok (col_x sel)) ∧
    st.selectbox y_label (numeric_columns iris_data)
        (if decide (1 < length (numeric_columns iris_data)) then 1 else 0)
        session p3
      = (p3', Ok (col_y sel)).
Proof.
  unfold sidebar. simpl. unfold mbind, app_bind. simpl.
  destruct (st.selectbox hist_label _ _ _ _) as [p1' [c1|]] eqn:E1; [|done].
  destruct (st.selectbox x_label _ _ _ _) as [p2' [c2|]] eqn:E2; [|done].
  destruct (st.selectbox y_label _ _ _ _) as [p3' [c3|]] eqn:E3; [|done].
  intros [= _ <-]. simpl. eauto 10.
Qed.




(** ** The embedding covers every run on scikit-learn's bunch *)

Lemma rmap_Raise {A B} (f : A → result B) (l : list A) (e : exn) :
  rmap f l = Raise e → ∃ x, x ∈ l ∧ f x = Raise e.
Proof.
  induction l as [|x l IH]; simpl; [done|].
  destruct (f x) as [b|e'] eqn:Ef; simpl.
  - destruct (rmap f l) as [bs|e'']; simpl; [done|].
    intros [= <-]. destruct IH as (y & Hy & Hfy); [done|].
    exists y. split; [by right|done].
  - intros [= <-]. exists x. split; [left|done].
Qed.

Lemma hist_Raise (x : list Q) (bins : nat) (e : exn) :
  plt.hist x bins = Raise e → e = ValueError.
Proof.
  unfold plt.hist, plt.histogram. case_decide; [by intros [= <-]|].
  destruct (plt.get_outer_edges _ _) as [[first_edge last_edge]|e'] eqn:E.
  - simpl. unfold plt.bincount. destruct (forallb _ _); simpl; [done|].
    by intros [= <-].
  - simpl. intros [= <-]. unfold plt.get_outer_edges in E.
    repeat match type of E with
           | context [match ?t with _ => _ end] =>
               destruct t eqn:?; simpl in E
           end; congruence.
Qed.

Lemma load_data_iris_cases (m : list (list Q)) :
  load_data (load_iris m) = Ok (iris_frame m)
  ∨ load_data (load_iris m) = Raise ValueError.
Proof.
  unfold load_data, load_iris, pd.DataFrame_of. simpl.
  destruct (forallb _ m); simpl; [|by right].
  change (np.take iris_target_names iris_target) with (Ok iris_species).
  simpl. unfold pd.setitem. simpl. case_decide; [by left|by right].
Qed.

Lemma getitem_iris_numeric (m : list (list Q)) (c : string) :
  c ∈ iris_feature_names →
  ∃ x, pd.getitem (iris_frame m) c = Ok (pd.Float64 x).
Proof.
  unfold iris_feature_names. rewrite !elem_of_cons, elem_of_nil.
  intros [->|[->|[->|[->|[]]]]]; eexists; reflexivity.
Qed.

Lemma histogram_figure_embedded (m : list (list Q)) (c : option string) :
  numeric_choice c →
  histogram_figure (iris_frame m) c 20 ≠ Raise NotEmbedded.
Proof.
  intros Hc. unfold histogram_figure. destruct c as [c|]; simpl; [|done].
  destruct (getitem_iris_numeric m c) as [x ->]; [by apply Hc|]. simpl.
  destruct (plt.hist x 20) as [h|e] eqn:E; simpl; [done|].
  apply hist_Raise in E as ->. done.
Qed.

Lemma bind_Ok {A B} (a : A) (k : A → result B) : (Ok a ≫= k) = k a.
Proof. reflexivity. Qed.

Lemma bind_Raise {A B} (e : exn) (k : A → result B) : (Raise e ≫= k) = Raise e.
Proof. reflexivity. Qed.

Lemma fmap_Ok {A B} (f : A → B) (a : A) : f <$> Ok a = Ok (f a).
Proof. reflexivity. Qed.

(** With float columns under the two chosen labels, a turn of the scatter
    loop stays inside the embedding. *)
Lemma scatter_group_supported (df : pd.DataFrame) (v : list string)
    (cx cy : option string) (s : string) :
  pd.getitem df "Species" = Ok (pd.Object v) →
  (∀ c, cx = Some c → ∃ x, pd.getitem df c = Ok (pd.Float64 x)) →
  (∀ c, cy = Some c → ∃ y, pd.getitem df c = Ok (pd.Float64 y)) →
  scatter_group df cx cy s ≠ Raise NotEmbedded.
Proof.
  intros Hv Hx Hy. unfold scatter_group, species_rows.
  rewrite (species_values_getitem _ v Hv), !bind_Ok.
  generalize (pd.eq_mask v s). intros mask. unfold pd.getitem_opt.
  destruct cx as [cx|]; [|done].
  rewrite getitem_mask_rows. destruct (Hx cx eq_refl) as [x ->].
  rewrite fmap_Ok, bind_Ok.
  change (float_values (pd.series_mask mask (pd.Float64 x)))
    with (Ok (pd.take_mask mask x)).
  rewrite bind_Ok.
  destruct cy as [cy|]; [|done].
  rewrite getitem_mask_rows. destruct (Hy cy eq_refl) as [y ->].
  rewrite fmap_Ok, bind_Ok.
  change (float_values (pd.series_mask mask (pd.Float64 y)))
    with (Ok (pd.take_mask mask y)).
  rewrite bind_Ok. unfold fig.scatter. by case_decide.
Qed.

Lemma scatter_figure_embedded (m : list (list Q)) (cx cy : option string) :
  numeric_choice cx → numeric_choice cy →
  scatter_figure (iris_frame m) cx cy ≠ Raise NotEmbedded.
Proof.
  intros Hx Hy. unfold scatter_figure.
  rewrite (species_values_getitem _ iris_species) by reflexivity.
  rewrite bind_Ok.
  destruct (rmap _ _) as [groups|e] eqn:E; [done|].
  apply rmap_Raise in E as (s & _ & Hs).
  rewrite bind_Raise. intros [= ->].
  revert Hs. apply (scatter_group_supported _ iris_species); [reflexivity| |].
  - intros c ->. apply getitem_iris_numeric. by apply Hx.
  - intros c ->. apply getitem_iris_numeric. by apply Hy.
Qed.

Lemma embedded_bind {A B} (m : st.App A) (k : A → st.App B) (P : A → Prop) :
  embedded m → returns m P → (∀ a, P a → embedded (k a)) →
  embedded (m ≫= k).
Proof.
  intros Hm HP Hk session shown. unfold mbind, app_bind.
  specialize (Hm session shown). specialize (HP session shown).
  destruct (m session shown) as [shown' [a|e]]; simpl in *.
  - apply Hk. by eapply HP.
  - intros [= ->]. by apply Hm.
Qed.

Lemma embedded_emit (e : st.Element) : embedded (st.emit e).
Proof. by intros session shown. Qed.

Lemma embedded_lift {A} (r : result A) :
  r ≠ Raise NotEmbedded → embedded (st.lift r).
Proof. by intros Hr session shown. Qed.

Lemma embedded_selectbox (label : string) (options : list string) (index : nat) :
  embedded (st.selectbox label options index).
Proof.
  intros session shown. unfold st.selectbox. case_decide; [done|].
  destruct options; [done|]. by destruct (_ !! _).
Qed.

Lemma returns_selectbox (label : string) (options : list string) (index : nat) :
  returns (st.selectbox label options index) (λ c, ∀ c', c = Some c' → c' ∈ options).
Proof.
  intros session shown shown' c Hc c' ->. by eapply selectbox_in_options.
Qed.

Lemma returns_True {A} (m : st.App A) : returns m (λ _, True).
Proof. by intros session shown shown' a _. Qed.

Lemma sidebar_returns (m : list (list Q)) :
  returns (sidebar (iris_frame m))
          (λ sel, numeric_choice (selected_column_hist sel)
                  ∧ numeric_choice (col_x sel) ∧ numeric_choice (col_y sel)).
Proof.
  intros session shown shown' sel Hsel.
  apply sidebar_inv in Hsel as (p1 & p1' & p2 & p2' & p3 & p3' & H1 & H2 & H3).
  change (numeric_columns (iris_frame m)) with iris_feature_names in *.
  split_and!; intros c Hc.
  - rewrite Hc in H1. by eapply selectbox_in_options.
  - rewrite Hc in H2. by eapply selectbox_in_options.
  - rewrite Hc in H3. by eapply selectbox_in_options.
Qed.

Lemma page_embedded (m : list (list Q)) : embedded (page (iris_frame m)).
Proof.
  unfold page.
  apply (embedded_bind _ _ (λ _, True)); [|apply returns_True|intros _ _].
  { unfold overview.
    repeat first
      [ apply (embedded_bind _ _ (λ _, True)); [|apply returns_True|intros ? _]
      | apply embedded_emit
      | by apply embedded_lift ]. }
  eapply embedded_bind; [|apply sidebar_returns|].
  { unfold sidebar.
    repeat first
      [ apply (embedded_bind _ _ (λ _, True)); [|apply returns_True|intros ? _]
      | apply embedded_emit
      | apply embedded_selectbox
      | by intros session shown ]. }
  intros sel (Hh & Hx & Hy).
  apply (embedded_bind _ _ (λ _, True)); [|apply returns_True|intros _ _].
  { unfold charts.
    repeat first
      [ apply (embedded_bind _ _ (λ _, True)); [|apply returns_True|intros ? _]
      | apply embedded_emit
      | apply embedded_lift; by apply histogram_figure_embedded
      | apply embedded_lift; by apply scatter_figure_embedded ]. }
  unfold species_detail, species_select.
  repeat first
    [ apply (embedded_bind _ _ (λ _, True)); [|apply returns_True|intros ? _]
    | apply embedded_emit
    | apply embedded_selectbox
    | by apply embedded_lift ].
Qed.

(** No run of the script on scikit-learn's bunch, whatever the
    measurements and the session, stops at [NotEmbedded]. *)
Lemma app_embedded (m : list (list Q)) (session : st.Session) :
  (run (load_iris m) session).2 ≠ Raise NotEmbedded.
Proof.
  unfold run, app. simpl. unfold mbind, app_bind, st.lift. simpl.
  destruct (load_data_iris_cases m) as [-> | ->]; [|done].
  apply page_embedded.
Qed.

(** ** The theorems at work on the sample frame *)

Lemma sample_frame_wf : pd.wf sample_frame.
Proof. apply iris_frame_wf. reflexivity. Qed.

Lemma sample_scatter_figure :
  ∃ f, scatter_figure sample_frame (Some "sepal length (cm)")
                      (Some "petal width (cm)") = Ok f.
Proof. vm_compute. eexists. reflexivity. Qed.


Lemma scatter_figure_groups_witness :
  pd.wf sample_frame ∧
  pd.getitem sample_frame "Species" = Ok (pd.Object iris_species) ∧
  pd.getitem sample_frame "sepal length (cm)"
    = Ok (pd.Float64 (sample_column 0)) ∧
  pd.getitem sample_frame "petal width (cm)"
    = Ok (pd.Float64 (sample_column 3)) ∧
  ∃ f, scatter_figure sample_frame (Some "sepal length (cm)")
                      (Some "petal width (cm)") = Ok f ∧
       NoDup (fig.label <$> fig.artists f) ∧
       sum_list ((λ a, length (fig.points a)) <$> fig.artists f)
         = pd.nrows sample_frame.
Proof.
  split; [exact sample_frame_wf|]. do 3 (split; [reflexivity|]).
  destruct (scatter_figure_groups sample_frame iris_species
              "sepal length (cm)" "petal width (cm)"
              (sample_column 0) (sample_column 3)
              sample_frame_wf eq_refl eq_refl eq_refl)
    as (f & Hf & Hnodup & _ & Hsum & _).
  exists f. split; [exact Hf|]. split; [exact Hnodup|exact Hsum].
Defined.

Lemma describe_summary_witness :
  pd.wf sample_frame ∧
  pd.getitem sample_frame "sepal width (cm)"
    = Ok (pd.Float64 (sample_column 1)) ∧
  2 ≤ pd.nrows sample_frame ∧
  (describe.describe sample_frame).*1 = numeric_columns sample_frame.
Proof.
  assert (2 ≤ pd.nrows sample_frame) as Hrows by (vm_compute; lia).
  split; [exact sample_frame_wf|]. split; [reflexivity|].
  split; [exact Hrows|].
  exact (proj1 (describe_summary sample_frame "sepal width (cm)"
                  (sample_column 1) sample_frame_wf eq_refl Hrows)).
Defined.

Lemma species_rows_filter_witness :
  pd.wf sample_frame ∧
  pd.getitem sample_frame "Species" = Ok (pd.Object iris_species) ∧
  iris_shape sample_measurements ∧
  ∃ setosa_data,
    load_data (load_iris sample_measurements)
      ≫= (λ df, species_rows df (Some "setosa")) = Ok setosa_data ∧
    pd.nrows setosa_data = 50.
Proof.
  split; [exact sample_frame_wf|]. split; [reflexivity|].
  split; [exact sample_shape|].
  destruct (species_rows_filter sample_frame iris_species "versicolor"
              sample_measurements sample_frame_wf eq_refl sample_shape)
    as [_ (setosa_data & Hload & Hrows & _)].
  exists setosa_data. split; [exact Hload|exact Hrows].
Defined.





Lemma charts_ignore_species_filter_witness :
  (<[species_label := 2]> ∅ : st.Session) !! hist_label
    = (∅ : st.Session) !! hist_label ∧
  (<[species_label := 2]> ∅ : st.Session) !! x_label
    = (∅ : st.Session) !! x_label ∧
  (<[species_label := 2]> ∅ : st.Session) !! y_label
    = (∅ : st.Session) !! y_label ∧
  figures (run (load_iris sample_measurements) (<[species_label := 2]> ∅)).1
    = figures (run (load_iris sample_measurements) ∅).1.
Proof.
  assert (∀ label, label ≠ species_label →
            (<[species_label := 2]> ∅ : st.Session) !! label
            = (∅ : st.Session) !! label) as Hagree
    by (intros label Hne; apply (lookup_insert_ne (M := gmap string)); congruence).
  split; [by apply Hagree|]. split; [by apply Hagree|].
  split; [by apply Hagree|].
  exact (proj1 (charts_ignore_species_filter (load_iris sample_measurements)
                  (<[species_label := 2]> ∅) ∅
                  (Hagree hist_label ltac:(done))
                  (Hagree x_label ltac:(done))
                  (Hagree y_label ltac:(done)))).
Defined.


Lemma species_first_occurrence_order_witness :
  pd.getitem sample_frame "Species" = Ok (pd.Object iris_species) ∧
  ∃ f, scatter_figure sample_frame (Some "sepal length (cm)")
                      (Some "petal width (cm)") = Ok f ∧
       fig.label <$> fig.artists f = Some <$> pd.unique iris_species ∧
       (species_select sample_frame ∅ []).2 = Ok (head iris_species).
Proof.
  split; [reflexivity|].
  destruct sample_scatter_figure as [f Hf]. exists f. split; [exact Hf|].
  destruct (species_first_occurrence_order sample_frame iris_species _ _ f
              ∅ [] eq_refl Hf) as (Hlabels & _ & _ & _ & Hdefault).
  split; [exact Hlabels|exact Hdefault].
Defined.

(** * Further properties of the script *)

(** ** Exceptions the script cannot raise *)

Lemma avoids_bind {A B} (e : exn) (m : st.App A) (k : A → st.App B) :
  avoids e m → (∀ a, avoids e (k a)) → avoids e (m ≫= k).
Proof.
  intros Hm Hk session shown. unfold mbind, app_bind.
  specialize (Hm session shown).
  destruct (m session shown) as [shown' [a|e']]; simpl in *.
  - apply Hk.
  - intros [= ->]. by apply Hm.
Qed.

Lemma avoids_emit (e : exn) (el : st.Element) : avoids e (st.emit el).
Proof. by intros session shown. Qed.

Lemma avoids_lift {A} (e : exn) (r : result A) :
  r ≠ Raise e → avoids e (st.lift r).
Proof. by intros Hr session shown. Qed.

(** A select box refuses its [index] only when the index is outside a
    non-empty option list. *)
Lemma avoids_selectbox (label : string) (options : list string) (index : nat) :
  options = [] ∨ index < length options →
  avoids StreamlitAPIException (st.selectbox label options index).
Proof.
  intros Hindex session shown. unfold st.selectbox.
  rewrite decide_False by (destruct Hindex as [->|?]; simpl; lia).
  destruct options; [done|]. by destruct (_ !! _).
Qed.

Lemma rbind_avoids {A B} (e : exn) (r : result A) (k : A → result B) :
  r ≠ Raise e → (∀ a, k a ≠ Raise e) → (r ≫= k) ≠ Raise e.
Proof.
  intros Hr Hk. destruct r as [a|e']; simpl; [apply Hk|].
  intros [= ->]. by apply Hr.
Qed.

Lemma rmap_avoids {A B} (e : exn) (f : A → result B) (l : list A) :
  (∀ x, f x ≠ Raise e) → rmap f l ≠ Raise e.
Proof.
  intros Hf H. apply rmap_Raise in H as (x & _ & Hx). by apply Hf in Hx.
Qed.

Ltac solve_result_avoids :=
  repeat first
    [ apply rbind_avoids; [|intros ?]
    | apply rmap_avoids; intros ?
    | progress (unfold pd.getitem_opt, pd.getitem, float_values, fig.scatter,
                pd.setitem, pd.DataFrame_of, np.take, np.item)
    | match goal with
      | |- context [match ?x with _ => _ end] => destruct x
      end
    | done ].

Lemma load_data_no_api_exception (iris : Bunch) :
  load_data iris ≠ Raise StreamlitAPIException.
Proof. unfold load_data. solve_result_avoids. Qed.

Lemma species_values_no_api_exception (df : pd.DataFrame) :
  species_values df ≠ Raise StreamlitAPIException.
Proof. unfold species_values. solve_result_avoids. Qed.

Lemma species_rows_no_api_exception (df : pd.DataFrame) (s : option string) :
  species_rows df s ≠ Raise StreamlitAPIException.
Proof.
  unfold species_rows. apply rbind_avoids; [|done].
  apply species_values_no_api_exception.
Qed.

Lemma histogram_figure_no_api_exception (df : pd.DataFrame)
    (c : option string) (bins : nat) :
  histogram_figure df c bins ≠ Raise StreamlitAPIException.
Proof.
  unfold histogram_figure. apply rbind_avoids; [solve_result_avoids|intros s].
  apply rbind_avoids; [solve_result_avoids|intros x].
  apply rbind_avoids; [|done]. intros H. by apply hist_Raise in H.
Qed.

Lemma scatter_figure_no_api_exception (df : pd.DataFrame)
    (cx cy : option string) :
  scatter_figure df cx cy ≠ Raise StreamlitAPIException.
Proof.
  unfold scatter_figure.
  apply rbind_avoids; [apply species_values_no_api_exception|intros v].
  apply rbind_avoids; [|done]. apply rmap_avoids. intros s.
  unfold scatter_group.
  apply rbind_avoids; [apply species_rows_no_api_exception|intros d].
  solve_result_avoids.
Qed.

(** X1. No run of the script, on any bunch and any session, ends with
    [StreamlitAPIException]: the index given to each select box is 0, or
    1 only when there are at least two numeric columns, so it is never
    outside a non-empty option list. *)
Theorem run_no_api_exception (iris : Bunch) (session : st.Session) :
  (run iris session).2 ≠ Raise StreamlitAPIException.
Proof.
  unfold run. revert session. generalize (@nil st.Element).
  intros shown session. revert session shown.
  change (avoids StreamlitAPIException (app iris)).
  unfold app, page, overview, sidebar, charts, species_detail, species_select.
  repeat first
    [ apply avoids_bind; [|intros ?]
    | apply avoids_emit
    | apply avoids_lift;
      first [ apply load_data_no_api_exception
            | apply species_values_no_api_exception
            | apply species_rows_no_api_exception
            | apply histogram_figure_no_api_exception
            | apply scatter_figure_no_api_exception ]
    | apply avoids_selectbox ].
  all: try (by intros session shown).
  all: try (destruct (numeric_columns _) as [|? [|? ?]]; simpl; auto with lia).
  all: try (destruct (pd.unique _); simpl; auto with lia).
Qed.

(** ** The numeric columns *)

Lemma lookup_column_NoDup (label : string) (s : pd.Series)
    (cols : list (string * pd.Series)) :
  NoDup cols.*1 → (label, s) ∈ cols → pd.lookup_column label cols = Some s.
Proof.
  induction cols as [|[l0 s0] cols IH]; csimpl; [by intros _ ?%elem_of_nil|].
  intros [Hl0 Hnd]%NoDup_cons [[= -> ->]|Hin]%elem_of_cons.
  - by rewrite decide_True.
  - rewrite decide_False; [by apply IH|].
    intros ->. apply Hl0. by apply (list_elem_of_fmap_2 fst) in Hin.
Qed.

Lemma lookup_column_None (label : string) (cols : list (string * pd.Series)) :
  pd.lookup_column label cols = None ↔ label ∉ cols.*1.
Proof.
  induction cols as [|[l0 s0] cols IH]; csimpl.
  - split; [intros _; apply not_elem_of_nil|done].
  - case_decide as Hl; simpl in Hl.
    + split; [done|]. intros []. subst. left.
    + rewrite IH, not_elem_of_cons. naive_solver.
Qed.

(** X2. In a well-formed frame the options of the sidebar are exactly the
    labels under which the frame holds a float column: every option can
    be looked up and plotted, the [Species] column of strings is not
    among them, and a label the frame does not have is a [KeyError]. *)
Theorem numeric_columns_plottable (iris_data : pd.DataFrame) (c : string) :
  pd.wf iris_data →
  (c ∈ numeric_columns iris_data
   ↔ ∃ x, pd.getitem iris_data c = Ok (pd.Float64 x)) ∧
  (∀ v, pd.getitem iris_data c = Ok (pd.Object v) →
        c ∉ numeric_columns iris_data) ∧
  (c ∉ pd.labels iris_data ↔ pd.getitem iris_data c = Raise KeyError).
Proof.
  intros [_ Hnd]. unfold numeric_columns, pd.select_number_labels, pd.getitem,
    pd.labels in *.
  assert (c ∈ (List.filter (λ c, pd.is_number c.2) (pd.columns iris_data)).*1
          ↔ ∃ x, (c, pd.Float64 x) ∈ pd.columns iris_data) as Hmem.
  { rewrite list_elem_of_fmap. split.
    - intros ([l s] & -> & Hin). apply list_elem_of_In, filter_In in Hin.
      destruct Hin as [Hin Hnum]. destruct s; [|done].
      eexists. by apply list_elem_of_In.
    - intros [x Hin]. exists (c, pd.Float64 x). split; [done|].
      apply list_elem_of_In, filter_In. split; [by apply list_elem_of_In|done]. }
  split_and!.
  - rewrite Hmem. split.
    + intros [x Hin]. exists x. by rewrite (lookup_column_NoDup _ _ _ Hnd Hin).
    + intros [x Hx]. exists x.
      destruct (pd.lookup_column c _) as [s|] eqn:E; [|done].
      injection Hx as ->. by apply lookup_column_elem_of.
  - intros v Hv. rewrite Hmem. intros [x Hin].
    rewrite (lookup_column_NoDup _ _ _ Hnd Hin) in Hv. done.
  - rewrite <- lookup_column_None.
    destruct (pd.lookup_column c _); split; done.
Qed.

Lemma numeric_columns_plottable_witness :
  pd.wf sample_frame ∧
  "petal width (cm)" ∈ numeric_columns sample_frame ∧
  ("Species" ∉ numeric_columns sample_frame) ∧
  pd.getitem sample_frame "sepal" = Raise KeyError.
Proof.
  split; [exact sample_frame_wf|].
  destruct (numeric_columns_plottable sample_frame "petal width (cm)"
              sample_frame_wf) as (Hnum & _ & _).
  destruct (numeric_columns_plottable sample_frame "Species"
              sample_frame_wf) as (_ & Hobj & _).
  destruct (numeric_columns_plottable sample_frame "sepal"
              sample_frame_wf) as (_ & _ & Hkey).
  split; [apply Hnum; eexists; reflexivity|].
  split; [by apply (Hobj iris_species)|].
  apply Hkey. apply (bool_decide_unpack _). vm_compute. exact I.
Defined.

(** ** The first rows *)

Lemma take_zip_with_cons {A} (n : nat) (c : list A) (rows : list (list A)) :
  take n (zip_with cons c rows) = zip_with cons (take n c) (take n rows).
Proof.
  revert c rows. induction n as [|n IH]; intros [|x c] [|r rows]; simpl;
    try done.
  by rewrite IH.
Qed.

Lemma cells_series_head (n : nat) (s : pd.Series) :
  pd.cells (pd.series_head n s) = take n (pd.cells s).
Proof. destruct s; simpl; by rewrite fmap_take. Qed.

(** X3. The table under "First 5 Rows" holds the first five records of the
    frame, in order, or all of them when the frame has fewer; it keeps the
    frame's columns. *)
Theorem head_first_records (iris_data : pd.DataFrame) :
  pd.records (pd.head iris_data) = take 5 (pd.records iris_data) ∧
  pd.nrows (pd.head iris_data) = Nat.min 5 (pd.nrows iris_data) ∧
  pd.labels (pd.head iris_data) = pd.labels iris_data ∧
  pd.records (pd.head iris_data) `prefix_of` pd.records iris_data.
Proof.
  assert (pd.records (pd.head iris_data) = take 5 (pd.records iris_data)) as H.
  { destruct iris_data as [cols n]. unfold pd.records, pd.head. simpl.
    induction cols as [|[l s] cols IH]; simpl.
    - by rewrite take_replicate.
    - rewrite take_zip_with_cons, <- IH, cells_series_head. done. }
  split_and!; [done|done| |].
  - unfold pd.labels, pd.head. simpl. rewrite <- list_fmap_compose.
    apply list_fmap_ext. by intros i [l s] _.
  - rewrite H. apply prefix_take.
Qed.

(** ** The detail table *)

Lemma count_true_eq_mask (v : list string) (s : string) :
  pd.count_true (pd.eq_mask v s) = length (filter (λ x, x = s) v).
Proof.
  unfold pd.count_true. induction v as [|x v IH]; csimpl; [done|].
  rewrite filter_cons. case_bool_decide; case_decide; simpl; try done.
  by rewrite IH.
Qed.

Lemma species_rows_Some (iris_data : pd.DataFrame) (v : list string)
    (s : string) :
  pd.getitem iris_data "Species" = Ok (pd.Object v) →
  species_rows iris_data (Some s)
  = Ok (pd.mask_rows iris_data (pd.eq_mask v s)).
Proof. intros Hv. unfold species_rows. by rewrite (species_values_getitem _ v). Qed.

Lemma shown_count_filter (iris_data : pd.DataFrame) (v : list string)
    (s : string) :
  pd.wf iris_data →
  pd.getitem iris_data "Species" = Ok (pd.Object v) →
  shown_count iris_data (Some s) = length (filter (λ x, x = s) v).
Proof.
  intros Hwf Hv. unfold shown_count. rewrite (species_rows_Some _ v) by done.
  simpl. pose proof (getitem_size _ _ _ Hwf Hv) as Hlen. simpl in Hlen.
  rewrite <- Hlen, <- count_true_eq_mask. f_equal.
  apply take_ge. unfold pd.eq_mask. by rewrite length_fmap.
Qed.

(** X4. The count written under the detail table is the number of rows of
    the chosen species.  For a species that the select box offers it is at
    least one, so the table is never empty; for a value that no row has,
    and when nothing is selected, it is zero; and over the offered species
    the counts add up to the number of rows of the frame. *)
Theorem detail_counts (iris_data : pd.DataFrame) (v : list string) :
  pd.wf iris_data →
  pd.getitem iris_data "Species" = Ok (pd.Object v) →
  (∀ s, shown_count iris_data (Some s) = length (filter (λ x, x = s) v)) ∧
  (∀ s, s ∈ pd.unique v → 1 ≤ shown_count iris_data (Some s)) ∧
  (∀ s, s ∉ v → shown_count iris_data (Some s) = 0) ∧
  shown_count iris_data None = 0 ∧
  sum_list ((λ s, shown_count iris_data (Some s)) <$> pd.unique v)
    = pd.nrows iris_data.
Proof.
  intros Hwf Hv.
  assert (∀ s, shown_count iris_data (Some s)
               = length (filter (λ x, x = s) v)) as Hcount
    by (intros s; by apply shown_count_filter).
  split_and!.
  - exact Hcount.
  - intros s Hs. apply (proj1 (elem_of_unique _ _)) in Hs. rewrite Hcount.
    assert (s ∈ filter (λ x, x = s) v) as Hin
      by (by apply list_elem_of_filter).
    destruct (filter _ v); [by apply elem_of_nil in Hin|simpl; lia].
  - intros s Hs. rewrite Hcount.
    destruct (filter (λ x, x = s) v) as [|x l] eqn:E; [done|].
    assert (x ∈ filter (λ x, x = s) v) as Hin by (rewrite E; left).
    apply list_elem_of_filter in Hin as [-> Hin]. done.
  - unfold shown_count, species_rows.
    rewrite (species_values_getitem _ v Hv). simpl.
    generalize (pd.nrows iris_data). clear. intros n. revert n.
    induction v as [|x v IH]; intros [|n]; simpl; try done. apply IH.
  - rewrite <- (getitem_size _ _ _ Hwf Hv). simpl.
    rewrite <- (sum_counts (pd.unique v) v);
      [|apply NoDup_unique|intros x; apply elem_of_unique].
    apply sum_list_fmap_ext. intros s _. apply Hcount.
Qed.

Lemma detail_counts_witness :
  pd.wf sample_frame ∧
  pd.getitem sample_frame "Species" = Ok (pd.Object iris_species) ∧
  1 ≤ shown_count sample_frame (Some "virginica") ∧
  shown_count sample_frame (Some "iris") = 0.
Proof.
  split; [exact sample_frame_wf|]. split; [reflexivity|].
  destruct (detail_counts sample_frame iris_species sample_frame_wf eq_refl)
    as (_ & Hone & Hzero & _).
  split.
  - apply Hone. apply (bool_decide_unpack _). vm_compute. exact I.
  - apply Hzero. apply (bool_decide_unpack _). vm_compute. exact I.
Defined.

Lemma take_mask_all_true {A} (mask : list bool) (l : list A) :
  Forall (λ b, b = true) mask → length l ≤ length mask →
  pd.take_mask mask l = l.
Proof.
  intros Hmask. revert l. induction Hmask as [|b mask -> _ IH];
    intros [|x l] Hlen; simpl in *; try done; [lia|].
  rewrite IH; [done|lia].
Qed.

Lemma eq_mask_filter_same (v : list string) (s : string) :
  Forall (λ b, b = true) (pd.eq_mask (filter (λ x, x = s) v) s).
Proof.
  apply Forall_fmap, Forall_forall.
  intros x [-> _]%list_elem_of_filter. simpl. by apply bool_decide_eq_true_2.
Qed.

Lemma eq_mask_filter_other (v : list string) (s t : string) :
  s ≠ t → pd.eq_mask (filter (λ x, x = s) v) t
          = (λ _, false) <$> filter (λ x, x = s) v.
Proof.
  intros Hne. unfold pd.eq_mask. apply list_fmap_ext.
  intros i x [-> _]%list_elem_of_lookup_2%list_elem_of_filter.
  by apply bool_decide_eq_false_2.
Qed.

Lemma mask_rows_all_false (df : pd.DataFrame) (v : list string) :
  pd.records (pd.mask_rows df ((λ _, false) <$> v)) = [] ∧
  pd.nrows (pd.mask_rows df ((λ _, false) <$> v)) = 0.
Proof.
  split.
  - rewrite records_mask_rows. apply take_mask_all_false.
  - simpl. generalize (pd.nrows df). intros n. revert n.
    induction v as [|x v IH]; intros [|n]; simpl; try done. apply IH.
Qed.

(** X5. Filtering composes as a filter should: filtering the detail table
    of a species by the same species gives that table back, and filtering
    it by another species gives a table without rows. *)
Theorem species_rows_twice (iris_data : pd.DataFrame) (v : list string)
    (s t : string) :
  pd.wf iris_data →
  pd.getitem iris_data "Species" = Ok (pd.Object v) →
  s ≠ t →
  ∃ species_data,
    species_rows iris_data (Some s) = Ok species_data ∧
    species_rows species_data (Some s) = Ok species_data ∧
    ∃ other,
      species_rows species_data (Some t) = Ok other ∧
      pd.nrows other = 0 ∧ pd.records other = [].
Proof.
  intros Hwf Hv Hne.
  set (d := pd.mask_rows iris_data (pd.eq_mask v s)).
  assert (pd.getitem d "Species"
          = Ok (pd.Object (filter (λ x, x = s) v))) as Hd.
  { unfold d. rewrite getitem_mask_rows, Hv. simpl.
    by rewrite take_mask_eq_mask_self. }
  pose proof (mask_rows_wf iris_data (pd.eq_mask v s) Hwf) as Hdwf.
  fold d in Hdwf.
  pose proof (getitem_size _ _ _ Hdwf Hd) as Hn. simpl in Hn.
  exists d. split; [by apply species_rows_Some|]. split.
  - rewrite (species_rows_Some _ _ _ Hd). f_equal.
    pose proof (eq_mask_filter_same v s) as Htrue.
    assert (length (pd.eq_mask (filter (λ x, x = s) v) s) = pd.nrows d) as Hlm
      by (unfold pd.eq_mask; by rewrite length_fmap).
    destruct Hdwf as [Hsize _].
    generalize dependent (pd.eq_mask (filter (λ x, x = s) v) s).
    intros mask Htrue Hlm. destruct d as [cols n]. unfold pd.mask_rows.
    simpl in *. f_equal.
    + clear Hd Hn. induction Hsize as [|[l c] cols Hc _ IH]; csimpl; [done|].
      rewrite IH. f_equal. unfold prod_map. simpl. f_equal.
      simpl in Hc. destruct c; simpl in *; f_equal;
        apply take_mask_all_true; try done; lia.
    + rewrite take_ge by lia. unfold pd.count_true.
      rewrite (filter_all _ mask); [lia|].
      eapply Forall_impl; [exact Htrue|]. by intros b ->.
  - exists (pd.mask_rows d ((λ _, false) <$> filter (λ x, x = s) v)).
    rewrite (species_rows_Some _ _ _ Hd), eq_mask_filter_other by done.
    split; [done|]. destruct (mask_rows_all_false d (filter (λ x, x = s) v)).
    by split.
Qed.

Lemma species_rows_twice_witness :
  pd.wf sample_frame ∧
  pd.getitem sample_frame "Species" = Ok (pd.Object iris_species) ∧
  "setosa" ≠ "virginica" ∧
  ∃ species_data,
    species_rows sample_frame (Some "setosa") = Ok species_data ∧
    species_rows species_data (Some "setosa") = Ok species_data.
Proof.
  split; [exact sample_frame_wf|]. split; [reflexivity|]. split; [done|].
  destruct (species_rows_twice sample_frame iris_species "setosa" "virginica"
              sample_frame_wf eq_refl ltac:(done))
    as (d & H1 & H2 & _).
  exists d. split; [exact H1|exact H2].
Defined.

(** ** More on the summary statistics *)

Lemma describe_entry (df : pd.DataFrame) (field : string) (x : list Q) :
  pd.getitem df field = Ok (pd.Float64 x) →
  (field, describe.describe_1d x) ∈ describe.describe df.
Proof.
  intros Hget. unfold describe.describe. apply list_elem_of_omap.
  exists (field, pd.Float64 x). split; [|done].
  unfold pd.getitem in Hget.
  destruct (pd.lookup_column field (pd.columns df)) as [s|] eqn:E; [|done].
  injection Hget as ->. by apply lookup_column_elem_of.
Qed.





Lemma nth_ascending (l : list Q) (i j : nat) :
  ascending l → i ≤ j → j < length l → (nth i l 0 <= nth j l 0)%Q.
Proof.
  intros Hl. revert i j. induction Hl as [|x l Hx _ IH]; intros i j Hij Hj;
    simpl in Hj; [lia|].
  destruct i as [|i], j as [|j]; simpl; try lia.
  - apply Qle_refl.
  - rewrite Forall_forall in Hx. apply Hx, nth_elem_of. lia.
  - apply IH; lia.
Qed.

(** On values in ascending order, the linear-interpolation percentile
    does not decrease with the percentage. *)
Lemma linear_percentile_mono (s : list Q) (p1 p2 : Q) :
  ascending s → 1 ≤ length s →
  (0 <= p1)%Q → (p1 <= p2)%Q → (p2 <= 1)%Q →
  (linear_percentile s p1 <= linear_percentile s p2)%Q.
Proof.
  intros Hs Hn Hp0 Hp12 Hp1. unfold linear_percentile.
  set (n1 := describe.of_nat (length s - 1)).
  assert (0 <= n1)%Q as Hn1 by (apply (proj2 (of_nat_le 0 (length s - 1))); lia).
  set (h1 := (n1 * p1)%Q). set (h2 := (n1 * p2)%Q).
  assert (0 <= h1)%Q as H01 by (unfold h1; nra).
  assert (h1 <= h2)%Q as H12 by (unfold h1, h2; nra).
  assert (h2 <= n1)%Q as H2n by (unfold h2; nra).
  assert (∀ h, (0 <= h)%Q → (h <= n1)%Q →
            (0 ≤ Qfloor h)%Z ∧ (Qfloor h ≤ Qceiling h)%Z
            ∧ (Qceiling h ≤ Z.of_nat (length s - 1))%Z) as Hidx.
  { intros h Hh0 Hhn. split_and!.
    - apply floor_ge. by change (inject_Z 0) with 0%Q.
    - apply inject_Z_le. eapply Qle_trans; [apply Qfloor_le|apply Qle_ceiling].
    - rewrite <- (Qceiling_Z (Z.of_nat (length s - 1))).
      by apply Qceiling_resp_le. }
  destruct (Hidx h1) as (Hf1 & Hfc1 & Hc1); [done|by eapply Qle_trans|].
  destruct (Hidx h2) as (Hf2 & Hfc2 & Hc2); [by eapply Qle_trans|done|].
  pose proof (Qfloor_le h1) as Hfl1. pose proof (Qlt_floor h1) as Hfl1'.
  pose proof (Qfloor_le h2) as Hfl2. pose proof (Qlt_floor h2) as Hfl2'.
  rewrite inject_Z_plus in Hfl1', Hfl2'.
  change (inject_Z 1) with 1%Q in Hfl1', Hfl2'.
  assert (∀ a b : Z, (0 ≤ a)%Z → (a ≤ b)%Z → (b ≤ Z.of_nat (length s - 1))%Z →
            (nth (Z.to_nat a) s 0 <= nth (Z.to_nat b) s 0)%Q) as Hmono.
  { intros a b Ha Hab Hb. apply nth_ascending; [done|lia|lia]. }
  pose proof (Hmono _ _ Hf1 Hfc1 Hc1) as Hba1.
  pose proof (Hmono _ _ Hf2 Hfc2 Hc2) as Hba2.
  assert (Qfloor h1 ≤ Qfloor h2)%Z as Hff by by apply Qfloor_resp_le.
  destruct (decide (Qfloor h1 = Qfloor h2)) as [Heq|Hne].
  - destruct (ceiling_floor h1) as [[Hc1' Hint1]|Hc1'].
    + rewrite Hc1'. assert (h1 - inject_Z (Qfloor h1) == 0)%Q as -> by lra.
      rewrite Heq. nra.
    + destruct (ceiling_floor h2) as [[Hc2' Hint2]|Hc2'].
      * rewrite Hc2'. rewrite Heq in *.
        assert (h1 - inject_Z (Qfloor h2) == 0)%Q as -> by lra.
        assert (h2 - inject_Z (Qfloor h2) == 0)%Q as -> by lra. lra.
      * rewrite Hc1', Hc2', Heq in *. nra.
  - assert (Qceiling h1 ≤ Qfloor h2)%Z as Hcf.
    { destruct (ceiling_floor h1) as [[-> _]| ->]; lia. }
    assert (nth (Z.to_nat (Qceiling h1)) s 0
            <= nth (Z.to_nat (Qfloor h2)) s 0)%Q as Hmid
      by (apply Hmono; lia).
    generalize dependent (nth (Z.to_nat (Qfloor h1)) s 0%Q). intros b1.
    generalize dependent (nth (Z.to_nat (Qceiling h1)) s 0%Q). intros a1.
    generalize dependent (nth (Z.to_nat (Qfloor h2)) s 0%Q). intros b2.
    generalize dependent (nth (Z.to_nat (Qceiling h2)) s 0%Q). intros a2.
    intros. 
    assert (b1 + (h1 - inject_Z (Qfloor h1)) * (a1 - b1) <= a1)%Q by nra.
    assert (b2 <= b2 + (h2 - inject_Z (Qfloor h2)) * (a2 - b2))%Q by nra.
    lra.
Qed.

(** X7. The three quartiles of a numeric column come in order: the 25th
    percentile is at most the median, and the median at most the 75th
    percentile. *)
Theorem quartiles_ordered (iris_data : pd.DataFrame) (field : string)
    (x : list Q) :
  pd.wf iris_data →
  pd.getitem iris_data field = Ok (pd.Float64 x) →
  1 ≤ pd.nrows iris_data →
  ∃ stats q1 q2 q3,
    (field, stats) ∈ describe.describe iris_data ∧
    describe.pct25 stats = Some q1 ∧
    describe.pct50 stats = Some q2 ∧
    describe.pct75 stats = Some q3 ∧
    (q1 <= q2)%Q ∧ (q2 <= q3)%Q.
Proof.
  intros Hwf Hget Hrows.
  pose proof (getitem_size _ _ _ Hwf Hget) as Hlen. simpl in Hlen.
  destruct (plt.amin x) as [lo|] eqn:Hlo;
    [|destruct x; [simpl in Hlen; lia|done]].
  destruct (plt.amax x) as [hi|] eqn:Hhi;
    [|destruct x; [simpl in Hlen; lia|done]].
  destruct (quantile_spec x (1 # 4) lo hi) as (q1 & Hq1 & _ & _ & E1);
    [lra|lra|done|done|].
  destruct (quantile_spec x (1 # 2) lo hi) as (q2 & Hq2 & _ & _ & E2);
    [lra|lra|done|done|].
  destruct (quantile_spec x (3 # 4) lo hi) as (q3 & Hq3 & _ & _ & E3);
    [lra|lra|done|done|].
  exists (describe.describe_1d x), q1, q2, q3.
  split; [by apply describe_entry|]. simpl.
  split; [done|]. split; [done|]. split; [done|].
  assert (1 ≤ length (describe.sort x)) as Hn by (rewrite length_sort; lia).
  pose proof (sort_ascending x) as Hasc.
  rewrite E1, E2, E3.
  split; apply linear_percentile_mono; try done; lra.
Qed.

Lemma quartiles_ordered_witness :
  pd.wf sample_frame ∧
  pd.getitem sample_frame "petal length (cm)"
    = Ok (pd.Float64 (sample_column 2)) ∧
  1 ≤ pd.nrows sample_frame ∧
  ∃ stats q1 q2 q3,
    (("petal length (cm)", stats) ∈ describe.describe sample_frame) ∧
    describe.pct25 stats = Some q1 ∧
    describe.pct50 stats = Some q2 ∧
    describe.pct75 stats = Some q3 ∧
    (q1 <= q2)%Q ∧ (q2 <= q3)%Q.
Proof.
  assert (1 ≤ pd.nrows sample_frame) as Hrows by (vm_compute; lia).
  split; [exact sample_frame_wf|]. split; [reflexivity|].
  split; [exact Hrows|].
  exact (quartiles_ordered sample_frame "petal length (cm)"
           (sample_column 2) sample_frame_wf eq_refl Hrows).
Defined.



(** ** More on the histogram *)








(** ** Runs that stop, runs that complete *)

Lemma app_bind_emit {B} (e : st.Element) (k : () → st.App B)
    (session : st.Session) (shown : list st.Element) :
  (st.emit e ≫= k) session shown = k () session (shown ++ [e]).
Proof. reflexivity. Qed.

Lemma app_bind_Ok {A B} (m : st.App A) (k : A → st.App B)
    (session : st.Session) (shown shown' : list st.Element) (a : A) :
  m session shown = (shown', Ok a) →
  (m ≫= k) session shown = k a session shown'.
Proof. intros H. unfold mbind, app_bind. by rewrite H. Qed.

Lemma app_bind_Raise {A B} (m : st.App A) (k : A → st.App B)
    (session : st.Session) (shown shown' : list st.Element) (e : exn) :
  m session shown = (shown', Raise e) →
  (m ≫= k) session shown = (shown', Raise e).
Proof. intros H. unfold mbind, app_bind. by rewrite H. Qed.

Lemma app_bind_lift_Ok {A B} (r : result A) (a : A) (k : A → st.App B)
    (session : st.Session) (shown : list st.Element) :
  r = Ok a → (st.lift r ≫= k) session shown = k a session shown.
Proof. by intros ->. Qed.

Lemma app_bind_lift_Raise {A B} (r : result A) (e : exn) (k : A → st.App B)
    (session : st.Session) (shown : list st.Element) :
  r = Raise e → (st.lift r ≫= k) session shown = (shown, Raise e).
Proof. by intros ->. Qed.

Lemma selectbox_empty (label : string) (index : nat) (session : st.Session)
    (shown : list st.Element) :
  st.selectbox label [] index session shown
  = (shown ++ [st.select_widget label [] index], Ok None).
Proof. unfold st.selectbox. by rewrite decide_False by (simpl; lia). Qed.

Lemma overview_Ok (iris_data : pd.DataFrame) (v : list string)
    (session : st.Session) (shown : list st.Element) :
  pd.getitem iris_data "Species" = Ok (pd.Object v) →
  ∃ shown', overview iris_data session shown = (shown', Ok ())
            ∧ figures shown' = figures shown
            ∧ select_boxes shown' = select_boxes shown.
Proof.
  intros Hv. unfold overview. rewrite !app_bind_emit.
  rewrite (app_bind_lift_Ok _ v) by by apply species_values_getitem.
  rewrite !app_bind_emit. eexists. split; [reflexivity|].
  rewrite !figures_app, !select_boxes_app. simpl. by rewrite !app_nil_r.
Qed.

(** X11. A frame without numeric columns stops the script at the
    histogram: the three select boxes of the sidebar have nothing to offer
    and return [None], whatever the session, and looking up the column
    [None] is a [KeyError]; no figure is drawn. *)
Theorem page_without_numeric_columns (iris_data : pd.DataFrame)
    (v : list string) (session : st.Session) (shown : list st.Element) :
  pd.getitem iris_data "Species" = Ok (pd.Object v) →
  numeric_columns iris_data = [] →
  (sidebar iris_data session shown).2
    = Ok {| selected_column_hist := None; col_x := None; col_y := None |} ∧
  (page iris_data session shown).2 = Raise KeyError ∧
  figures (page iris_data session shown).1 = figures shown.
Proof.
  intros Hv Hnum.
  assert (∀ p, sidebar iris_data session p
               = (p ++ [st.header "🎨 Interactive Visualizations";
                        st.sidebar_header "Visualization Options";
                        st.select_widget hist_label [] 0;
                        st.select_widget x_label [] 0;
                        st.select_widget y_label [] 0],
                  Ok {| selected_column_hist := None; col_x := None;
                        col_y := None |})) as Hside.
  { intros p. unfold sidebar. rewrite Hnum. rewrite !app_bind_emit.
    rewrite (app_bind_Ok _ _ _ _ _ _ (selectbox_empty _ _ _ _)).
    rewrite (app_bind_Ok _ _ _ _ _ _ (selectbox_empty _ _ _ _)).
    rewrite (app_bind_Ok _ _ _ _ _ _ (selectbox_empty _ _ _ _)).
    simpl. by rewrite <- !app_assoc. }
  split; [by rewrite Hside|].
  destruct (overview_Ok iris_data v session shown Hv) as (p1 & Ho & Hf1 & _).
  unfold page. rewrite (app_bind_Ok _ _ _ _ _ _ Ho).
  rewrite (app_bind_Ok _ _ _ _ _ _ (Hside p1)).
  erewrite app_bind_Raise;
    [|unfold charts; rewrite app_bind_emit;
      apply app_bind_lift_Raise; reflexivity].
  simpl. split; [done|].
  rewrite !figures_app, Hf1. simpl. by rewrite !app_nil_r.
Qed.

Lemma page_without_numeric_columns_witness :
  pd.getitem labels_only_frame "Species"
    = Ok (pd.Object ["setosa"; "virginica"]) ∧
  numeric_columns labels_only_frame = [] ∧
  (page labels_only_frame sample_session []).2 = Raise KeyError.
Proof.
  split; [reflexivity|]. split; [reflexivity|].
  exact (proj1 (proj2 (page_without_numeric_columns labels_only_frame
                         ["setosa"; "virginica"] sample_session []
                         eq_refl eq_refl))).
Defined.

Lemma selectbox_Ok (label : string) (options : list string) (index : nat)
    (session : st.Session) (shown : list st.Element) :
  index < length options →
  in_range session label options →
  ∃ c, st.selectbox label options index session shown
       = (shown ++ [st.select_widget label options index], Ok (Some c))
       ∧ c ∈ options.
Proof.
  intros Hindex Hrange. unfold st.selectbox. rewrite decide_False by lia.
  destruct options as [|o options]; [simpl in Hindex; lia|].
  assert (default index (session !! label) < length (o :: options)) as Hp.
  { destruct (session !! label) as [p|] eqn:E; simpl; [by apply Hrange|done]. }
  destruct (lookup_lt_is_Some_2 _ _ Hp) as [c Hc]. rewrite Hc.
  exists c. split; [done|]. by eapply list_elem_of_lookup_2.
Qed.

Lemma numeric_columns_float (df : pd.DataFrame) (c : string) :
  pd.wf df → c ∈ numeric_columns df →
  ∃ x, pd.getitem df c = Ok (pd.Float64 x).
Proof.
  intros [_ Hnd] Hc. unfold numeric_columns, pd.select_number_labels in Hc.
  apply list_elem_of_fmap in Hc as ([l s] & -> & Hin).
  apply list_elem_of_In, filter_In in Hin as [Hin Hnum].
  destruct s as [x|]; [|done]. exists x. unfold pd.getitem. simpl.
  apply list_elem_of_In in Hin.
  by rewrite (lookup_column_NoDup _ _ _ Hnd Hin).
Qed.

Lemma sidebar_Ok (iris_data : pd.DataFrame) (session : st.Session)
    (shown : list st.Element) :
  numeric_columns iris_data ≠ [] →
  in_range session hist_label (numeric_columns iris_data) →
  in_range session x_label (numeric_columns iris_data) →
  in_range session y_label (numeric_columns iris_data) →
  ∃ shown' ch cx cy,
    sidebar iris_data session shown
    = (shown', Ok {| selected_column_hist := Some ch;
                     col_x := Some cx; col_y := Some cy |}) ∧
    ch ∈ numeric_columns iris_data ∧
    cx ∈ numeric_columns iris_data ∧
    cy ∈ numeric_columns iris_data ∧
    figures shown' = figures shown ∧
    select_boxes shown'
    = select_boxes shown ++ [(hist_label, numeric_columns iris_data);
                             (x_label, numeric_columns iris_data);
                             (y_label, numeric_columns iris_data)].
Proof.
  intros Hne Hh Hx Hy. unfold sidebar.
  generalize dependent (numeric_columns iris_data). intros numeric Hne Hh Hx Hy.
  assert (0 < length numeric) as Hlen by (destruct numeric; [done|simpl; lia]).
  rewrite !app_bind_emit.
  edestruct (selectbox_Ok hist_label numeric 0) as (ch & Hch & Hch_in);
    [done|done|].
  rewrite (app_bind_Ok _ _ _ _ _ _ Hch).
  edestruct (selectbox_Ok x_label numeric 0) as (cx & Hcx & Hcx_in);
    [done|done|].
  rewrite (app_bind_Ok _ _ _ _ _ _ Hcx).
  edestruct (selectbox_Ok y_label numeric
               (if decide (1 < length numeric) then 1 else 0))
    as (cy & Hcy & Hcy_in); [by case_decide|done|].
  rewrite (app_bind_Ok _ _ _ _ _ _ Hcy).
  eexists _, ch, cx, cy. split; [reflexivity|].
  split_and!; try done.
  - rewrite !figures_app. simpl. by rewrite !app_nil_r.
  - rewrite !select_boxes_app. simpl. by rewrite !app_nil_r, <- !app_assoc.
Qed.






(** ** Loading any bunch *)













Section frame_of_rows.
Variables (rows : list (list Q)) (names : list string).





End frame_of_rows.





(** ** A data set without rows *)

Lemma hist_no_data :
  plt.hist [] 20
  = Ok {| plt.counts := replicate 20 0; plt.bin_edges := plt.linspace 0 1 20 |}.
Proof. reflexivity. Qed.

Lemma numeric_columns_empty (df : pd.DataFrame) (c : string) :
  pd.wf df → pd.nrows df = 0 → c ∈ numeric_columns df →
  pd.getitem df c = Ok (pd.Float64 []).
Proof.
  intros Hwf Hrows Hc. destruct (numeric_columns_float df c Hwf Hc) as [x Hx].
  pose proof (getitem_size df c _ Hwf Hx) as Hsize. simpl in Hsize.
  rewrite Hrows in Hsize. by destruct x.
Qed.

(** X15. On a well-formed frame without rows (it still has its columns) the
    script runs to its end.  The histogram is drawn over numpy's default
    range for no data, twenty empty bins from 0 to 1; the scatter figure
    has axes and a legend but no artist; the species select box has
    nothing to offer; and the last line of the page reports a count of 0
    records. *)
Theorem empty_dataset_page (iris_data : pd.DataFrame) (v : list string)
    (session : st.Session) (shown : list st.Element) :
  pd.wf iris_data →
  pd.nrows iris_data = 0 →
  pd.getitem iris_data "Species" = Ok (pd.Object v) →
  numeric_columns iris_data ≠ [] →
  in_range session hist_label (numeric_columns iris_data) →
  in_range session x_label (numeric_columns iris_data) →
  in_range session y_label (numeric_columns iris_data) →
  ∃ shown' ch cx cy,
    page iris_data session shown = (shown', Ok ()) ∧
    figures shown'
    = figures shown
      ++ [ {| fig.figsize := (8, 5);
              fig.artists :=
                [fig.Bars {| plt.counts := replicate 20 0;
                             plt.bin_edges := plt.linspace 0 1 20 |}
                          "skyblue" "black"];
              fig.xlabel := Some ch;
              fig.ylabel := Some "Frequency";
              fig.legend := false |};
           {| fig.figsize := (8, 5);
              fig.artists := [];
              fig.xlabel := Some cx;
              fig.ylabel := Some cy;
              fig.legend := true |} ] ∧
    last (select_boxes shown') = Some (species_label, []) ∧
    last shown'
    = Some (st.write [st.Text "**Count:** "; st.Int 0; st.Text " records"]).
Proof.
  intros Hwf Hrows Hv Hne Hh Hx Hy.
  assert (v = []) as ->.
  { pose proof (getitem_size _ _ _ Hwf Hv) as Hsize. simpl in Hsize.
    rewrite Hrows in Hsize. by destruct v. }
  destruct (overview_Ok iris_data [] session shown Hv) as (p1 & Ho & Hf1 & _).
  destruct (sidebar_Ok iris_data session p1 Hne Hh Hx Hy)
    as (p2 & ch & cx & cy & Hside & Hch & Hcx & Hcy & Hf2 & _).
  pose proof (numeric_columns_empty _ _ Hwf Hrows Hch) as Hgh.
  pose proof (species_values_getitem _ _ Hv) as Hsv.
  exists (p2 ++ [st.subheader [st.Text "📊 Histogram: "; st.Name (Some ch)];
                st.pyplot {| fig.figsize := (8, 5);
                   fig.artists :=
                     [fig.Bars {| plt.counts := replicate 20 0;
                                  plt.bin_edges := plt.linspace 0 1 20 |}
                               "skyblue" "black"];
                   fig.xlabel := Some ch;
                   fig.ylabel := Some "Frequency";
                   fig.legend := false |};
                st.subheader [st.Text "📍 Scatter Plot: "; st.Name (Some cx);
                              st.Text " vs "; st.Name (Some cy)];
                st.pyplot {| fig.figsize := (8, 5);
                   fig.artists := [];
                   fig.xlabel := Some cx;
                   fig.ylabel := Some cy;
                   fig.legend := true |};
                st.header "🔍 Data by Species";
                st.select_widget species_label [] 0;
                st.dataframe (pd.mask_rows iris_data []);
                st.write [st.Text "**Count:** "; st.Int 0; st.Text " records"]]),
    ch, cx, cy.
  split.
  { unfold page. rewrite (app_bind_Ok _ _ _ _ _ _ Ho).
    rewrite (app_bind_Ok _ _ _ _ _ _ Hside).
    unfold charts. simpl selected_column_hist. simpl col_x. simpl col_y.
    assert (histogram_figure iris_data (Some ch) 20
            = Ok {| fig.figsize := (8, 5);
                    fig.artists :=
                      [fig.Bars {| plt.counts := replicate 20 0;
                                   plt.bin_edges := plt.linspace 0 1 20 |}
                                "skyblue" "black"];
                    fig.xlabel := Some ch;
                    fig.ylabel := Some "Frequency";
                    fig.legend := false |}) as Hfh.
    { unfold histogram_figure. simpl pd.getitem_opt. rewrite Hgh, bind_Ok.
      simpl float_values. by rewrite bind_Ok, hist_no_data, bind_Ok. }
    assert (scatter_figure iris_data (Some cx) (Some cy)
            = Ok {| fig.figsize := (8, 5);
                    fig.artists := [];
                    fig.xlabel := Some cx;
                    fig.ylabel := Some cy;
                    fig.legend := true |}) as Hfs.
    { unfold scatter_figure. by rewrite Hsv, bind_Ok. }
    assert (species_rows iris_data None = Ok (pd.mask_rows iris_data []))
      as Hd.
    { unfold species_rows. by rewrite Hsv, bind_Ok. }
    erewrite app_bind_Ok;
      [|rewrite app_bind_emit, (app_bind_lift_Ok _ _ _ _ _ Hfh),
          app_bind_emit, app_bind_emit, (app_bind_lift_Ok _ _ _ _ _ Hfs);
        reflexivity].
    unfold species_detail, species_select.
    erewrite app_bind_Ok;
      [|rewrite app_bind_emit, (app_bind_lift_Ok _ _ _ _ _ Hsv);
        apply selectbox_empty].
    rewrite (app_bind_lift_Ok _ _ _ _ _ Hd), app_bind_emit.
    unfold st.emit. simpl pd.nrows. rewrite Hrows. simpl.
    by rewrite <- !app_assoc. }
  rewrite figures_app, select_boxes_app, Hf2, Hf1. simpl.
  split; [done|]. split; [by rewrite last_snoc|].
  by rewrite last_app.
Qed.

Lemma empty_session_in_range (label : string) (options : list string) :
  in_range ∅ label options.
Proof. intros p. unfold st.Session. by rewrite lookup_empty. Qed.

Lemma empty_dataset_page_witness :
  pd.wf empty_frame ∧
  pd.nrows empty_frame = 0 ∧
  numeric_columns empty_frame = ["length"; "width"] ∧
  ∃ shown',
    page empty_frame ∅ [] = (shown', Ok ()) ∧
    length (figures shown') = 2 ∧
    last shown'
    = Some (st.write [st.Text "**Count:** "; st.Int 0; st.Text " records"]).
Proof.
  assert (pd.wf empty_frame) as Hwf.
  { split.
    - by repeat constructor.
    - apply (bool_decide_unpack _). vm_compute. exact I. }
  split; [exact Hwf|]. split; [reflexivity|]. split; [reflexivity|].
  destruct (empty_dataset_page empty_frame [] ∅ [] Hwf eq_refl eq_refl
              ltac:(discriminate)
              (empty_session_in_range _ _) (empty_session_in_range _ _)
              (empty_session_in_range _ _))
    as (shown' & ch & cx & cy & Hpage & Hf & _ & Hlast).
  exists shown'. split; [exact Hpage|]. split; [|exact Hlast].
  rewrite Hf. reflexivity.
Defined.

(** ** The summary of a constant column *)






(** ** The page only grows *)










(** ** What a run reads of the session *)

Lemma species_detail_session (iris_data : pd.DataFrame) (s1 s2 : st.Session)
    (shown : list st.Element) :
  s1 !! species_label = s2 !! species_label →
  species_detail iris_data s1 shown = species_detail iris_data s2 shown.
Proof.
  intros Hs. unfold species_detail, species_select.
  unfold mbind, app_bind, st.lift, st.emit.
  destruct (species_values iris_data) as [v|e]; [|done].
  rewrite (selectbox_session species_label _ _ s1 s2) by done.
  destruct (st.selectbox species_label _ _ _ _) as [p [c|e]]; [|done].
  by destruct (species_rows iris_data c).
Qed.

(** X18. A run reads the session at the labels of its four select boxes
    and nowhere else: two sessions that agree there give the same page
    and the same outcome, on any bunch. *)
Theorem run_reads_select_boxes (iris : Bunch) (s1 s2 : st.Session) :
  s1 !! hist_label = s2 !! hist_label →
  s1 !! x_label = s2 !! x_label →
  s1 !! y_label = s2 !! y_label →
  s1 !! species_label = s2 !! species_label →
  run iris s1 = run iris s2.
Proof.
  intros Hh Hx Hy Hs. unfold run, app. rewrite !app_bind_emit.
  destruct (load_data iris) as [iris_data|e] eqn:E.
  2:{ by rewrite !(app_bind_lift_Raise _ _ _ _ _ eq_refl). }
  rewrite !(app_bind_lift_Ok _ _ _ _ _ eq_refl).
  generalize ((([] ++ [st.page_config "Iris EDA" "wide"]) ++
               [st.title "🌸 Iris Dataset Exploratory Data Analysis"]) ++
              [st.markdown
                 "This app provides interactive visualization and analysis of the Iris dataset."]).
  intros shown. unfold page. unfold mbind, app_bind.
  rewrite (overview_session iris_data s1 s2).
  destruct (overview iris_data s2 shown) as [p1 [[]|e1]]; [|done].
  rewrite (sidebar_session iris_data s1 s2) by done.
  destruct (sidebar iris_data s2 p1) as [p2 [sel|e2]]; [|done].
  rewrite (charts_session iris_data sel s1 s2).
  destruct (charts iris_data sel s2 p2) as [p3 [[]|e3]]; [|done].
  by apply species_detail_session.
Qed.

Lemma run_reads_select_boxes_witness :
  sample_session !! hist_label
  = (<["Select theme:" := 7]> sample_session : st.Session) !! hist_label ∧
  run (load_iris sample_measurements) sample_session
  = run (load_iris sample_measurements)
        (<["Select theme:" := 7]> sample_session).
Proof.
  assert (∀ label, label ≠ "Select theme:" →
            sample_session !! label
            = (<["Select theme:" := 7]> sample_session : st.Session) !! label)
    as Hother.
  { intros label Hne. symmetry.
    apply (lookup_insert_ne (M := gmap string)). congruence. }
  split; [by apply Hother|].
  apply run_reads_select_boxes; by apply Hother.
Defined.
